(** * The n8n license facade: [License] (packages/cli) and [LicenseState]
    (packages/@n8n/backend-common)

    A shallow embedding of the two classes and of the collaborators they call.
    [License.ts] holds two revisions of the class; they are embedded side by
    side as [Rev1] (the one whose [init] takes the instance type) and [Rev2]
    (the one that reads it from [InstanceSettings]).  What both revisions share
    word for word -- the certificate store -- is stated once.

    Asynchronous methods run on one event loop: the code between two [await]s
    is atomic.  A method is therefore a state transformer, and the two methods
    whose suspension matters ([init] and [shutdown]) are split at their
    [await]. *)

From Stdlib Require Import ZArith Bool.
From stdpp Require Import base strings gmap list.

Local Open Scope string_scope.

(** ** Values of the host language *)

(** [if (s)] on a string: the empty string is the only falsy one. *)
Definition truthy (s : string) : bool := negb (String.eqb s "").

(** [xs.includes(x)] on an array of strings. *)
Definition includes (xs : list string) (x : string) : bool :=
  existsb (String.eqb x) xs.

(** ** Configuration and constants *)

(** Modelled from the spec: the type [N8nInstanceType] of [./Interfaces], which
    is not among the sources; an instance is one of main, worker and
    webhook. *)
Inductive N8nInstanceType := main | worker | webhook.

Global Instance N8nInstanceType_eq_dec : EqDecision N8nInstanceType.
Proof. solve_decision. Defined.

(** Modelled from the spec: the role of a main instance in a multi-main setup
    (leader or follower), whose declaration is not among the sources.  The
    comment in [renewalEnabled] adds the third value: every main starts
    [unset] and later becomes [leader] or [follower]. *)
Inductive InstanceRole := unset | leader | follower.

Global Instance InstanceRole_eq_dec : EqDecision InstanceRole.
Proof. solve_decision. Defined.

(** The keys of [config] (and of [GlobalConfig]) that the class reads. *)
Record Config := {
  license_serverUrl : string;
  license_tenantId : Z;
  license_autoRenewEnabled : bool;
  license_autoRenewOffset : Z;
  license_cert : string;
  executions_mode : string;
  multiMainSetup_enabled : bool;
  multiMainSetup_instanceType : InstanceRole;
  binaryDataManager_mode : string;
  binaryDataManager_availableModes : list string;
}.

(** Modelled from the spec: [InstanceSettings] of n8n-core, which is not among
    the sources, as far as the class reads it: the instance type, the role
    and the instance id behind the device fingerprint. *)
Record InstanceSettings := {
  instanceType : N8nInstanceType;
  instanceRole : InstanceRole;
  instanceId : string;
}.

(** Modelled from the spec: the getters [isLeader] and [isFollower] of
    [InstanceSettings]; an instance holds one role at a time. *)
Definition isLeader (i : InstanceSettings) : bool :=
  bool_decide (instanceRole i = leader).

(** Modelled from the spec: see [isLeader]. *)
Definition isFollower (i : InstanceSettings) : bool :=
  bool_decide (instanceRole i = follower).

(** The imports from [./constants].  The module is not part of the sources at
    hand, so its values are parameters of the development. *)
Record Constants := {
  N8N_VERSION : string;
  SETTINGS_LICENSE_CERT_KEY : string;
  UNLIMITED_LICENSE_QUOTA : Z;
}.

(** Everything a method reads but never writes. *)
Record Env := {
  config : Config;
  instanceSettings : InstanceSettings;
  constants : Constants;
}.

(** ** Collaborators *)

(** A row of the settings table; the key is the key of the map. *)
Record SettingsRow := {
  value : string;
  loadOnStartup : bool;
}.

(** [TFeatures]: feature name to value. *)
Inductive FeatureValue :=
| FBool (b : bool)
| FNumber (n : Z)
| FString (s : string).

Inductive LogLevel := Debug | Warn | Error.

(** The options object handed to [new LicenseManager].  The two callbacks that
    depend on the instance type are recorded by whether the real method or the
    empty function was passed. *)
Record LicenseManagerOptions := {
  server : string;
  tenantId : Z;
  productIdentifier : string;
  autoRenewEnabled : bool;
  renewOnInit : bool;
  autoRenewOffset : Z;
  offlineMode : bool;
  saveCertStr_wired : bool;
  onFeatureChange_wired : bool;
}.

(** A manager object: its identity and what it was built with. *)
Record LicenseManager := {
  handle : nat;
  options : LicenseManagerOptions;
}.

(** Calls that leave the class, in the order they are made. *)
Inductive Event :=
| Logged (level : LogLevel) (message : string)
| ConsoleLog (h : nat)
| FindOne (key : string)
| Upsert (key : string) (row : SettingsRow)
| SetMultiMainSetupLicensed (licensed : bool)
| GetPubSubPublisher
| PublishCommand (command : string)
| SetReadonly (readonly : bool)
| ManagerNew (h : nat)
| ManagerNewThrew
| ManagerInitialize (h : nat)
| ManagerActivate (h : nat) (activationKey : string)
| ManagerReload (h : nat)
| ManagerRenew (h : nat)
| ManagerShutdown (h : nat)
| ManagerReset (h : nat).

(** [OrchestrationService] is used through three members only.  Its getter
    [isMultiMainSetupEnabled] may depend on the flag that
    [setMultiMainSetupLicensed] stores, so the service is kept abstract. *)
Class OrchestrationService (OS : Type) := {
  setMultiMainSetupLicensed : bool → OS → OS;
  isMultiMainSetupEnabled : OS → bool;
  orchestration_isFollower : OS → bool;
}.

(** ** The state *)

Section State.
Context {OS : Type}.

(** The fields of the [License] object, followed by the state of the
    collaborators it drives. *)
Record State := {
  manager : option LicenseManager;
  isShuttingDown : bool;
  redisPublisher : bool;
  settingsRepository : gmap string SettingsRow;
  orchestrationService : OS;
  objectStoreReadonly : bool;
  nextHandle : nat;
  trace : list Event;
}.

Definition set_manager (m : option LicenseManager) (s : State) : State :=
  {| manager := m; isShuttingDown := isShuttingDown s;
     redisPublisher := redisPublisher s;
     settingsRepository := settingsRepository s;
     orchestrationService := orchestrationService s;
     objectStoreReadonly := objectStoreReadonly s;
     nextHandle := nextHandle s; trace := trace s |}.

Definition set_isShuttingDown (b : bool) (s : State) : State :=
  {| manager := manager s; isShuttingDown := b;
     redisPublisher := redisPublisher s;
     settingsRepository := settingsRepository s;
     orchestrationService := orchestrationService s;
     objectStoreReadonly := objectStoreReadonly s;
     nextHandle := nextHandle s; trace := trace s |}.

Definition set_redisPublisher (b : bool) (s : State) : State :=
  {| manager := manager s; isShuttingDown := isShuttingDown s;
     redisPublisher := b;
     settingsRepository := settingsRepository s;
     orchestrationService := orchestrationService s;
     objectStoreReadonly := objectStoreReadonly s;
     nextHandle := nextHandle s; trace := trace s |}.

Definition set_settingsRepository (r : gmap string SettingsRow) (s : State)
  : State :=
  {| manager := manager s; isShuttingDown := isShuttingDown s;
     redisPublisher := redisPublisher s;
     settingsRepository := r;
     orchestrationService := orchestrationService s;
     objectStoreReadonly := objectStoreReadonly s;
     nextHandle := nextHandle s; trace := trace s |}.

Definition set_orchestrationService (o : OS) (s : State) : State :=
  {| manager := manager s; isShuttingDown := isShuttingDown s;
     redisPublisher := redisPublisher s;
     settingsRepository := settingsRepository s;
     orchestrationService := o;
     objectStoreReadonly := objectStoreReadonly s;
     nextHandle := nextHandle s; trace := trace s |}.

Definition set_objectStoreReadonly (b : bool) (s : State) : State :=
  {| manager := manager s; isShuttingDown := isShuttingDown s;
     redisPublisher := redisPublisher s;
     settingsRepository := settingsRepository s;
     orchestrationService := orchestrationService s;
     objectStoreReadonly := b;
     nextHandle := nextHandle s; trace := trace s |}.

Definition set_nextHandle (n : nat) (s : State) : State :=
  {| manager := manager s; isShuttingDown := isShuttingDown s;
     redisPublisher := redisPublisher s;
     settingsRepository := settingsRepository s;
     orchestrationService := orchestrationService s;
     objectStoreReadonly := objectStoreReadonly s;
     nextHandle := n; trace := trace s |}.

Definition emit (e : Event) (s : State) : State :=
  {| manager := manager s; isShuttingDown := isShuttingDown s;
     redisPublisher := redisPublisher s;
     settingsRepository := settingsRepository s;
     orchestrationService := orchestrationService s;
     objectStoreReadonly := objectStoreReadonly s;
     nextHandle := nextHandle s; trace := trace s ++ [e] |}.

(** *** A state monad for the methods *)

Definition M (A : Type) : Type := State → A * State.

Definition get {A} (f : State → A) : M A := λ s, (f s, s).

Definition modify (f : State → State) : M unit := λ s, (tt, f s).

Definition exec {A} (m : M A) (s : State) : State := snd (m s).

Definition eval {A} (m : M A) (s : State) : A := fst (m s).

End State.

Arguments State : clear implicits.
Arguments M : clear implicits.

(** [x ← m; k] and [m;; k] are stdpp's notations for [mbind]. *)
Global Instance M_ret {OS} : MRet (M OS) := λ A a s, (a, s).

Global Instance M_bind {OS} : MBind (M OS) :=
  λ A B k m s, let '(a, s') := m s in k a s'.

(** [if (c) { body }] without an [else]. *)
Definition when {OS} (c : bool) (body : M OS unit) : M OS unit :=
  if c then body else mret tt.

(** ** Primitive calls on the collaborators *)

Section Collaborators.
Context `{OrchestrationService OS}.

Definition log (level : LogLevel) (message : string) : M OS unit :=
  modify (emit (Logged level message)).

(** Modelled from the spec: the settings repository, which is not among the
    sources, is a table with one row per key.
    [settingsRepository.findOne({ where: { key } })] reads the row of a key. *)
Definition findOne (key : string) : M OS (option SettingsRow) :=
  modify (emit (FindOne key));;
  get (λ s, settingsRepository s !! key).

(** Modelled from the spec: [settingsRepository.upsert(row, ['key'])]
    overwrites the row that matches the key, or inserts it. *)
Definition upsert (key : string) (row : SettingsRow) : M OS unit :=
  modify (emit (Upsert key row));;
  modify (λ s, set_settingsRepository (<[key := row]> (settingsRepository s)) s).

Definition orchestration_setMultiMainSetupLicensed (b : bool) : M OS unit :=
  modify (emit (SetMultiMainSetupLicensed b));;
  modify (λ s, set_orchestrationService
                 (setMultiMainSetupLicensed b (orchestrationService s)) s).

(** Modelled from the spec: [Container.get(ObjectStoreService).setReadonly(b)]
    of n8n-core sets the object store's read-only flag. *)
Definition objectStore_setReadonly (b : bool) : M OS unit :=
  modify (emit (SetReadonly b));;
  modify (set_objectStoreReadonly b).

(** ** The certificate store (the same in both revisions) *)

Definition loadCertStr (env : Env) : M OS string :=
  let ephemeralLicense := license_cert (config env) in
  if truthy ephemeralLicense then mret ephemeralLicense
  else
    databaseSettings ← findOne (SETTINGS_LICENSE_CERT_KEY (constants env));
    mret (match databaseSettings with
          | Some row => value row
          | None => ""
          end).

Definition saveCertStr (env : Env) (value : string) : M OS unit :=
  if truthy (license_cert (config env)) then mret tt
  else
    upsert (SETTINGS_LICENSE_CERT_KEY (constants env))
           {| value := value; loadOnStartup := false |}.

End Collaborators.

(** ** The license SDK, seen from the class *)

(** How a call into the SDK ends: it returns, or it throws a value that is an
    [Error] or is not. *)
Inductive Completion := Returns | Throws (isError : bool).

(** The SDK's part in one [init]: the constructor, then [initialize()]. *)
Record SdkRun := {
  construct : Completion;
  initialize : Completion;
}.

(** Observations on a trace. *)
Definition is_ManagerNew (e : Event) : bool :=
  match e with ManagerNew _ => true | _ => false end.

Definition is_FindOne (e : Event) : bool :=
  match e with FindOne _ => true | _ => false end.

Definition is_Upsert (e : Event) : bool :=
  match e with Upsert _ _ => true | _ => false end.

(** How many managers were constructed. *)
Definition constructions (t : list Event) : nat :=
  length (filter (λ e, is_ManagerNew e = true) t).

(** How often the settings table was read or written. *)
Definition storage_accesses (t : list Event) : nat :=
  length (filter (λ e, is_FindOne e || is_Upsert e = true) t).

(** The commands published on the command channel, oldest first. *)
Fixpoint published (t : list Event) : list string :=
  match t with
  | [] => []
  | PublishCommand c :: t => c :: published t
  | _ :: t => published t
  end.

(** The arguments of the calls to [setReadonly], oldest first. *)
Fixpoint readonly_calls (t : list Event) : list bool :=
  match t with
  | [] => []
  | SetReadonly b :: t => b :: readonly_calls t
  | _ :: t => readonly_calls t
  end.

(** The arguments of the calls to [setMultiMainSetupLicensed], oldest first. *)
Fixpoint licensed_calls (t : list Event) : list bool :=
  match t with
  | [] => []
  | SetMultiMainSetupLicensed b :: t => b :: licensed_calls t
  | _ :: t => licensed_calls t
  end.

(** A [License] object right after its constructor ran, next to given
    collaborators. *)
Definition License_new {OS} (o : OS) (settings : gmap string SettingsRow)
  : State OS :=
  {| manager := None; isShuttingDown := false; redisPublisher := false;
     settingsRepository := settings; orchestrationService := o;
     objectStoreReadonly := false; nextHandle := 0; trace := [] |}.

(** ** Methods that both revisions spell the same way, logging apart *)

Section Shared.
Context `{OrchestrationService OS}.

(** [new LicenseManager(options)] when the constructor returns: the object
    gets an identity no earlier manager has. *)
Definition new_LicenseManager (opts : LicenseManagerOptions)
  : M OS LicenseManager :=
  h ← get nextHandle;
  modify (set_nextHandle (S h));;
  modify (emit (ManagerNew h));;
  mret {| handle := h; options := opts |}.

(** The [catch] block of [init]. *)
Definition init_catch (isError : bool) : M OS unit :=
  when isError (log Error "Could not initialize license manager sdk").

(** [getUsersLimit()]: the lookup is commented out, the constant is
    returned. *)
Definition getUsersLimit (env : Env) (this : State OS) : Z :=
  UNLIMITED_LICENSE_QUOTA (constants env).

Definition getTriggerLimit (env : Env) (this : State OS) : Z :=
  UNLIMITED_LICENSE_QUOTA (constants env).

Definition getVariablesLimit (env : Env) (this : State OS) : Z :=
  UNLIMITED_LICENSE_QUOTA (constants env).

Definition getWorkflowHistoryPruneLimit (env : Env) (this : State OS) : Z :=
  UNLIMITED_LICENSE_QUOTA (constants env).

(** [isWithinUsersLimit()]: [===] on two integers. *)
Definition isWithinUsersLimit (env : Env) (this : State OS) : bool :=
  Z.eqb (getUsersLimit env this) (UNLIMITED_LICENSE_QUOTA (constants env)).

(** [isFeatureEnabled(feature)]: the lookup is commented out. *)
Definition isFeatureEnabled (this : State OS) (feature : string) : bool :=
  true.

Definition isBinaryDataS3Licensed (this : State OS) : bool := true.

Definition isMultipleMainInstancesLicensed (this : State OS) : bool := true.

Definition isAPIDisabled (this : State OS) : bool := false.

(** [getManagementJwt()] and [getInfo()], with the manager's answer given. *)
Definition getManagementJwt (this : State OS) (jwt : string) : string :=
  match manager this with None => "" | Some _ => jwt end.

Definition getInfo (this : State OS) (managerToString : string) : string :=
  match manager this with None => "n/a" | Some _ => managerToString end.

End Shared.

(** ** The later revision of [License] *)

Module Rev2.
Section Methods.
Context `{OrchestrationService OS}.

(** [renewalEnabled()]: its first statement is [return false]; nothing
    below it is reachable. *)
Definition renewalEnabled (env : Env) : bool := false.

(** The options object that [init] builds. *)
Definition init_options (env : Env) : LicenseManagerOptions :=
  let isMainInstance := bool_decide (instanceType (instanceSettings env) = main) in
  let renewalEnabled := renewalEnabled env in
  {| server := license_serverUrl (config env);
     tenantId := license_tenantId (config env);
     productIdentifier := "n8n-" +:+ N8N_VERSION (constants env);
     autoRenewEnabled := renewalEnabled;
     renewOnInit := renewalEnabled;
     autoRenewOffset := license_autoRenewOffset (config env);
     offlineMode := negb isMainInstance;
     saveCertStr_wired := isMainInstance;
     onFeatureChange_wired := isMainInstance |}.

(** [init(forceRecreate)] up to its [await]: the two guards, then the
    constructor.  The result is the manager whose [initialize()] is
    awaited, if the method got that far. *)
Definition init_begin (env : Env) (ctor : Completion) (forceRecreate : bool)
  : M OS (option LicenseManager) :=
  m ← get manager;
  if bool_decide (is_Some m) && negb forceRecreate then
    log Warn "License manager already initialized or shutting down";;
    mret None
  else
    shuttingDown ← get isShuttingDown;
    if (shuttingDown : bool) then
      log Warn "License manager already shutting down";;
      mret None
    else
      match ctor with
      | Throws isError =>
          modify (emit ManagerNewThrew);;
          init_catch isError;;
          mret None
      | Returns =>
          m' ← new_LicenseManager (init_options env);
          modify (set_manager (Some m'));;
          modify (emit (ManagerInitialize (handle m')));;
          mret (Some m')
      end.

(** [init] after [initialize()] settled. *)
Definition init_settle (m : LicenseManager) (c : Completion) : M OS unit :=
  match c with
  | Returns =>
      modify (emit (ConsoleLog (handle m)));;
      log Debug "License initialized"
  | Throws isError => init_catch isError
  end.

Definition init (env : Env) (sdk : SdkRun) (forceRecreate : bool) : M OS unit :=
  pending ← init_begin env (construct sdk) forceRecreate;
  match pending with
  | Some m => init_settle m (initialize sdk)
  | None => mret tt
  end.

(** The first block of [onFeatureChange]; the result tells whether the
    [return] inside it was taken.  Quotation marks inside the log messages
    are written as apostrophes. *)
Definition onFeatureChange_multiMain (env : Env) : M OS bool :=
  if String.eqb (executions_mode (config env)) "queue"
     && multiMainSetup_enabled (config env) then
    let isMultiMainLicensed := true in
    orchestration_setMultiMainSetupLicensed isMultiMainLicensed;;
    enabled ← get (λ s, isMultiMainSetupEnabled (orchestrationService s));
    if enabled && isFollower (instanceSettings env) then
      log Debug "[Multi-main setup] Instance is follower, skipping sending of 'reload-license' command...";;
      mret true
    else
      enabled' ← get (λ s, isMultiMainSetupEnabled (orchestrationService s));
      when (enabled' && negb isMultiMainLicensed)
        (log Debug "[Multi-main setup] License changed with no support for multi-main setup - no new followers will be allowed to init. To restore multi-main setup, please upgrade to a license that supports this feature.");;
      mret false
  else mret false.

(** [onFeatureChange(_features)] *)
Definition onFeatureChange (env : Env) (_features : gmap string FeatureValue)
  : M OS unit :=
  log Debug "License feature change detected";;
  returned ← onFeatureChange_multiMain env;
  if (returned : bool) then mret tt
  else
    when (String.eqb (executions_mode (config env)) "queue")
      (modify (emit (PublishCommand "reload-license")));;
    let isS3Selected := String.eqb (binaryDataManager_mode (config env)) "s3" in
    let isS3Available := includes (binaryDataManager_availableModes (config env)) "s3" in
    let isS3Licensed := true in
    when (isS3Selected && isS3Available && negb isS3Licensed)
      (log Debug "License changed with no support for external storage - blocking writes on object store. To restore writes, please upgrade to a license that supports this feature.";;
       objectStore_setReadonly true).

(** [activate], [reload], [renew]: the manager's own call may throw, and
    then the log line is not reached; the completion is the caller's. *)
Definition activate (activationKey : string) (c : Completion) : M OS Completion :=
  m ← get manager;
  match m with
  | None => mret Returns
  | Some m =>
      modify (emit (ManagerActivate (handle m) activationKey));;
      match c with
      | Returns => log Debug "License activated";; mret Returns
      | Throws e => mret (Throws e)
      end
  end.

Definition reload (c : Completion) : M OS Completion :=
  m ← get manager;
  match m with
  | None => mret Returns
  | Some m =>
      modify (emit (ManagerReload (handle m)));;
      match c with
      | Returns => log Debug "License reloaded";; mret Returns
      | Throws e => mret (Throws e)
      end
  end.

Definition renew (c : Completion) : M OS Completion :=
  m ← get manager;
  match m with
  | None => mret Returns
  | Some m =>
      modify (emit (ManagerRenew (handle m)));;
      match c with
      | Returns => log Debug "License renewed";; mret Returns
      | Throws e => mret (Throws e)
      end
  end.

(** [shutdown()] up to its [await]: the flag is set first. *)
Definition shutdown_begin : M OS (option LicenseManager) :=
  modify (set_isShuttingDown true);;
  m ← get manager;
  match m with
  | None => mret None
  | Some m => modify (emit (ManagerShutdown (handle m)));; mret (Some m)
  end.

(** [shutdown] after the manager's [shutdown()] settled. *)
Definition shutdown_settle (c : Completion) : M OS Completion :=
  match c with
  | Returns => log Debug "License shut down";; mret Returns
  | Throws e => mret (Throws e)
  end.

Definition shutdown (c : Completion) : M OS Completion :=
  pending ← shutdown_begin;
  match pending with
  | Some _ => shutdown_settle c
  | None => mret Returns
  end.

(** [reinit()] *)
Definition reinit (env : Env) (sdk : SdkRun) : M OS unit :=
  m ← get manager;
  match m with
  | Some m => modify (emit (ManagerReset (handle m)))
  | None => mret tt
  end;;
  init env sdk true;;
  log Debug "License reinitialized".

Definition getTeamProjectLimit (env : Env) (this : State OS) : Z :=
  UNLIMITED_LICENSE_QUOTA (constants env).

End Methods.
End Rev2.

(** ** The earlier revision of [License] *)

Module Rev1.
Section Methods.
Context `{OrchestrationService OS}.

(** [renewalEnabled(instanceType)] *)
Definition renewalEnabled (env : Env) (instanceType : N8nInstanceType) : bool :=
  if negb (bool_decide (instanceType = main)) then false
  else
    let autoRenewEnabled := license_autoRenewEnabled (config env) in
    if multiMainSetup_enabled (config env) then
      autoRenewEnabled
      && bool_decide (multiMainSetup_instanceType (config env) = leader)
    else false.

Definition init_options (env : Env) (instanceType : N8nInstanceType)
  : LicenseManagerOptions :=
  let isMainInstance := bool_decide (instanceType = main) in
  let renewalEnabled := renewalEnabled env instanceType in
  {| server := license_serverUrl (config env);
     tenantId := license_tenantId (config env);
     productIdentifier := "n8n-" +:+ N8N_VERSION (constants env);
     autoRenewEnabled := renewalEnabled;
     renewOnInit := renewalEnabled;
     autoRenewOffset := license_autoRenewOffset (config env);
     offlineMode := negb isMainInstance;
     saveCertStr_wired := isMainInstance;
     onFeatureChange_wired := isMainInstance |}.

(** [init(instanceType, forceRecreate)] up to its [await]. *)
Definition init_begin (env : Env) (ctor : Completion)
    (instanceType : N8nInstanceType) (forceRecreate : bool)
  : M OS (option LicenseManager) :=
  m ← get manager;
  if bool_decide (is_Some m) && negb forceRecreate then
    log Warn "License manager already initialized or shutting down";;
    mret None
  else
    shuttingDown ← get isShuttingDown;
    if (shuttingDown : bool) then
      log Warn "License manager already shutting down";;
      mret None
    else
      match ctor with
      | Throws isError =>
          modify (emit ManagerNewThrew);;
          init_catch isError;;
          mret None
      | Returns =>
          m' ← new_LicenseManager (init_options env instanceType);
          modify (set_manager (Some m'));;
          modify (emit (ManagerInitialize (handle m')));;
          mret (Some m')
      end.

Definition init_settle (m : LicenseManager) (c : Completion) : M OS unit :=
  match c with
  | Returns => modify (emit (ConsoleLog (handle m)))
  | Throws isError => init_catch isError
  end.

Definition init (env : Env) (sdk : SdkRun)
    (instanceType : N8nInstanceType) (forceRecreate : bool) : M OS unit :=
  pending ← init_begin env (construct sdk) instanceType forceRecreate;
  match pending with
  | Some m => init_settle m (initialize sdk)
  | None => mret tt
  end.

(** The first block of [onFeatureChange]; the result tells whether the
    [return] inside it was taken. *)
Definition onFeatureChange_multiMain (env : Env) : M OS bool :=
  if String.eqb (executions_mode (config env)) "queue"
     && multiMainSetup_enabled (config env) then
    let isMultiMainLicensed := true in
    orchestration_setMultiMainSetupLicensed isMultiMainLicensed;;
    enabled ← get (λ s, isMultiMainSetupEnabled (orchestrationService s));
    follower ← get (λ s, orchestration_isFollower (orchestrationService s));
    if enabled && follower then
      log Debug "[Multi-main setup] Instance is follower, skipping sending of 'reloadLicense' command...";;
      mret true
    else
      enabled' ← get (λ s, isMultiMainSetupEnabled (orchestrationService s));
      when (enabled' && negb isMultiMainLicensed)
        (log Debug "[Multi-main setup] License changed with no support for multi-main setup - no new followers will be allowed to init. To restore multi-main setup, please upgrade to a license that supports this feature.");;
      mret false
  else mret false.

(** The second block: the publisher is fetched on first use. *)
Definition onFeatureChange_publish : M OS unit :=
  publisher ← get redisPublisher;
  when (negb publisher)
    (log Debug "Initializing Redis publisher for License Service";;
     modify (emit GetPubSubPublisher);;
     modify (set_redisPublisher true));;
  modify (emit (PublishCommand "reloadLicense")).

(** [onFeatureChange(_features)] *)
Definition onFeatureChange (env : Env) (_features : gmap string FeatureValue)
  : M OS unit :=
  returned ← onFeatureChange_multiMain env;
  if (returned : bool) then mret tt
  else
    when (String.eqb (executions_mode (config env)) "queue")
      onFeatureChange_publish;;
    let isS3Selected := String.eqb (binaryDataManager_mode (config env)) "s3" in
    let isS3Available := includes (binaryDataManager_availableModes (config env)) "s3" in
    let isS3Licensed := true in
    when (isS3Selected && isS3Available && negb isS3Licensed)
      (log Debug "License changed with no support for external storage - blocking writes on object store. To restore writes, please upgrade to a license that supports this feature.";;
       objectStore_setReadonly true).

(** [shutdown()]: nothing follows the [await]. *)
Definition shutdown : M OS unit :=
  modify (set_isShuttingDown true);;
  m ← get manager;
  match m with
  | None => mret tt
  | Some m => modify (emit (ManagerShutdown (handle m)))
  end.

(** [reinit()] *)
Definition reinit (env : Env) (sdk : SdkRun) : M OS unit :=
  m ← get manager;
  match m with
  | Some m => modify (emit (ManagerReset (handle m)))
  | None => mret tt
  end;;
  init env sdk main true.

End Methods.
End Rev1.

(** ** [LicenseState] *)

Module LicenseState.

(** What a method of [LicenseState] ends with. *)
Inductive Result (A : Type) :=
| Value (a : A)
| ProviderNotSetError (message : string).
Arguments Value {A} a.
Arguments ProviderNotSetError {A} message.

(** Modelled from the spec: [LicenseProvider] of [./types], which is not
    among the sources: the backend with the two queries the class forwards. *)
Record LicenseProvider := {
  provider_isLicensed : string → bool;
  provider_getValue : string → option FeatureValue;
}.

Record LicenseState := {
  licenseProvider : option LicenseProvider;
}.

(** The field initialiser: [licenseProvider = null]. *)
Definition new : LicenseState := {| licenseProvider := None |}.

Definition setLicenseProvider (provider : LicenseProvider)
    (this : LicenseState) : LicenseState :=
  {| licenseProvider := Some provider |}.

(** [new ProviderNotSetError()] *)
Definition providerNotSet {A} : Result A :=
  ProviderNotSetError
    "Cannot query license state because license provider has not been set".

(** [assertProvider()]: on success the provider is known to be there. *)
Definition assertProvider (this : LicenseState) : Result LicenseProvider :=
  match licenseProvider this with
  | None => providerNotSet
  | Some p => Value p
  end.

Definition isLicensed (this : LicenseState) (feature : string) : Result bool :=
  match assertProvider this with
  | ProviderNotSetError e => ProviderNotSetError e
  | Value p => Value (provider_isLicensed p feature)
  end.

Definition getValue (this : LicenseState) (feature : string)
  : Result (option FeatureValue) :=
  match assertProvider this with
  | ProviderNotSetError e => ProviderNotSetError e
  | Value p => Value (provider_getValue p feature)
  end.

(** Two of the named queries that still go through the provider, and two
    that no longer do. *)
Definition isAskAiLicensed (this : LicenseState) : Result bool :=
  isLicensed this "feat:askAi".

Definition getMaxAiCredits (this : LicenseState) : Result FeatureValue :=
  match getValue this "quota:aiCredits" with
  | ProviderNotSetError e => ProviderNotSetError e
  | Value (Some v) => Value v
  | Value None => Value (FNumber 0)
  end.

Definition isSharingLicensed (this : LicenseState) : Result bool := Value true.

Definition getMaxUsers (k : Constants) (this : LicenseState) : Result Z :=
  Value (UNLIMITED_LICENSE_QUOTA k).

(** Whether a result is a returned value. *)
Definition returns {A} (r : Result A) : bool :=
  match r with Value _ => true | ProviderNotSetError _ => false end.

End LicenseState.

(** ** Sample collaborators and configurations *)

(** An orchestration service in the style of the real one: the multi-main
    setup counts as enabled when it is configured and licensed. *)
Record SampleOrchestration := {
  sample_configured : bool;
  sample_licensed : bool;
  sample_follower : bool;
}.

Global Instance SampleOrchestration_service
  : OrchestrationService SampleOrchestration := {|
  setMultiMainSetupLicensed b o :=
    {| sample_configured := sample_configured o;
       sample_licensed := b;
       sample_follower := sample_follower o |};
  isMultiMainSetupEnabled o := sample_configured o && sample_licensed o;
  orchestration_isFollower o := sample_follower o;
|}.

Definition sample_constants : Constants :=
  {| N8N_VERSION := "1.0.0";
     SETTINGS_LICENSE_CERT_KEY := "license.cert";
     UNLIMITED_LICENSE_QUOTA := -1 |}.

(** A single main instance in regular mode, renewal switched on, binary data
    on the file system, no ephemeral certificate. *)
Definition sample_config : Config :=
  {| license_serverUrl := "https://license.n8n.io/v1";
     license_tenantId := 1;
     license_autoRenewEnabled := true;
     license_autoRenewOffset := 259200;
     license_cert := "";
     executions_mode := "regular";
     multiMainSetup_enabled := false;
     multiMainSetup_instanceType := unset;
     binaryDataManager_mode := "default";
     binaryDataManager_availableModes := ["filesystem"] |}.

Definition with_cert (cert : string) (c : Config) : Config :=
  {| license_serverUrl := license_serverUrl c;
     license_tenantId := license_tenantId c;
     license_autoRenewEnabled := license_autoRenewEnabled c;
     license_autoRenewOffset := license_autoRenewOffset c;
     license_cert := cert;
     executions_mode := executions_mode c;
     multiMainSetup_enabled := multiMainSetup_enabled c;
     multiMainSetup_instanceType := multiMainSetup_instanceType c;
     binaryDataManager_mode := binaryDataManager_mode c;
     binaryDataManager_availableModes := binaryDataManager_availableModes c |}.

(** Queue mode, with the multi-main setup switched on or off and the given
    role. *)
Definition queue_config (multiMain : bool) (role : InstanceRole) : Config :=
  {| license_serverUrl := license_serverUrl sample_config;
     license_tenantId := license_tenantId sample_config;
     license_autoRenewEnabled := true;
     license_autoRenewOffset := license_autoRenewOffset sample_config;
     license_cert := "";
     executions_mode := "queue";
     multiMainSetup_enabled := multiMain;
     multiMainSetup_instanceType := role;
     binaryDataManager_mode := "default";
     binaryDataManager_availableModes := ["filesystem"] |}.

(** Binary data on S3, and S3 among the available modes. *)
Definition s3_config : Config :=
  {| license_serverUrl := license_serverUrl sample_config;
     license_tenantId := license_tenantId sample_config;
     license_autoRenewEnabled := true;
     license_autoRenewOffset := license_autoRenewOffset sample_config;
     license_cert := "";
     executions_mode := "regular";
     multiMainSetup_enabled := false;
     multiMainSetup_instanceType := unset;
     binaryDataManager_mode := "s3";
     binaryDataManager_availableModes := ["filesystem"; "s3"] |}.

Definition sample_env (c : Config) (role : InstanceRole) : Env :=
  {| config := c;
     instanceSettings :=
       {| instanceType := main; instanceRole := role; instanceId := "instance-1" |};
     constants := sample_constants |}.

Definition sample_orchestration (role : InstanceRole) : SampleOrchestration :=
  {| sample_configured := true;
     sample_licensed := false;
     sample_follower := bool_decide (role = follower) |}.

(** A fresh [License] next to an empty settings table. *)
Definition sample_license (role : InstanceRole) : State SampleOrchestration :=
  License_new (sample_orchestration role) ∅.

Definition sdk_ok : SdkRun := {| construct := Returns; initialize := Returns |}.

Definition sdk_constructor_throws : SdkRun :=
  {| construct := Throws true; initialize := Returns |}.

(** ** The renewal rule as the specification words it *)

(** Renewal is enabled only when the process is a main, automatic renewal is
    configured and, if the multi-main setup is enabled, the instance is the
    leader. *)
Definition renewal_rule (role : N8nInstanceType)
    (autoRenew multiMain isLeader : bool) : bool :=
  bool_decide (role = main) && autoRenew && implb multiMain isLeader.

(** Whether a feature set grants a feature, as [features[name]] tested by
    [if]: the reading that [onFeatureChange] has commented out. *)
Definition granted (features : gmap string FeatureValue) (name : string) : bool :=
  match features !! name with
  | Some (FBool b) => b
  | Some (FNumber n) => negb (Z.eqb n 0)
  | Some (FString s) => truthy s
  | None => false
  end.

(** ** Sequences of calls on one [License] object *)

(** The calls that reach the object of the later revision, each with what the
    SDK answers.  [init] and [shutdown] occur whole and also split at their
    [await], so that other calls can fall between the two halves. *)
Inductive Call :=
| Init (sdk : SdkRun) (forceRecreate : bool)
| InitBegin (ctor : Completion) (forceRecreate : bool)
| InitSettle (m : LicenseManager) (c : Completion)
| Reinit (sdk : SdkRun)
| Activate (activationKey : string) (c : Completion)
| Reload (c : Completion)
| Renew (c : Completion)
| Shutdown (c : Completion)
| ShutdownBegin
| ShutdownSettle (c : Completion)
| LoadCertStr
| SaveCertStr (value : string)
| OnFeatureChange (features : gmap string FeatureValue).

Section Calls.
Context `{OrchestrationService OS}.

(** One call, under the configuration in force when it is made. *)
Definition step (s : State OS) (call : Env * Call) : State OS :=
  let env := call.1 in
  match call.2 with
  | Init sdk forceRecreate => exec (Rev2.init env sdk forceRecreate) s
  | InitBegin ctor forceRecreate => exec (Rev2.init_begin env ctor forceRecreate) s
  | InitSettle m c => exec (Rev2.init_settle m c) s
  | Reinit sdk => exec (Rev2.reinit env sdk) s
  | Activate activationKey c => exec (Rev2.activate activationKey c) s
  | Reload c => exec (Rev2.reload c) s
  | Renew c => exec (Rev2.renew c) s
  | Shutdown c => exec (Rev2.shutdown c) s
  | ShutdownBegin => exec Rev2.shutdown_begin s
  | ShutdownSettle c => exec (Rev2.shutdown_settle c) s
  | LoadCertStr => exec (loadCertStr env) s
  | SaveCertStr value => exec (saveCertStr env value) s
  | OnFeatureChange features => exec (Rev2.onFeatureChange env features) s
  end.

(** Calls one after the other. *)
Definition run (calls : list (Env * Call)) (s : State OS) : State OS :=
  foldl step s calls.

(** Calls to [init()] without [forceRecreate], one after the other. *)
Definition inits (calls : list (Env * SdkRun)) (s : State OS) : State OS :=
  run ((λ c, (c.1, Init c.2 false)) <$> calls) s.

(** What a call may not do once shutdown has begun: clear the flag, replace
    the manager, construct one. *)
Definition holds_still (s s' : State OS) : Prop :=
  isShuttingDown s' = true
  ∧ manager s' = manager s
  ∧ constructions (trace s') = constructions (trace s).

End Calls.

(** ** The read side of [License] *)

(** [TEntitlement] of the license SDK, as far as the class reads it: the
    main-plan mark sits under two optional levels. *)
Record Terms := {
  isMainPlan : option bool;
}.

Record ProductMetadata := {
  terms : option Terms;
}.

Record TEntitlement := {
  entitlement_id : string;
  productId : string;
  productMetadata : option ProductMetadata;
}.

(** What the manager answers when it is asked; the SDK keeps this state, the
    class only forwards the questions. *)
Record ManagerAnswers := {
  answer_entitlements : list TEntitlement;
  answer_featureValue : string → option FeatureValue;
  answer_consumerId : string;
}.

(** The members of [LICENSE_FEATURES] and [LICENSE_QUOTAS] that the class
    names; [./constants] is not among the sources, so they are parameters. *)
Record LicenseNames := {
  AI_ASSISTANT : string;
  ASK_AI : string;
  PROJECT_ROLE_ADMIN : string;
  PROJECT_ROLE_EDITOR : string;
  PROJECT_ROLE_VIEWER : string;
  TEAM_PROJECT_LIMIT : string;
}.

Section Queries.
Context {OS : Type}.

(** [this.manager?.getCurrentEntitlements() ?? []] *)
Definition getCurrentEntitlements (this : State OS) (sdk : ManagerAnswers)
  : list TEntitlement :=
  match manager this with
  | Some _ => answer_entitlements sdk
  | None => []
  end.

(** [this.manager?.getFeatureValue(feature)] *)
Definition getFeatureValue (this : State OS) (sdk : ManagerAnswers)
    (feature : string) : option FeatureValue :=
  match manager this with
  | Some _ => answer_featureValue sdk feature
  | None => None
  end.

(** The callback of [find] in [getMainPlan]:
    [entitlement.productMetadata?.terms?.isMainPlan], read as a condition. *)
Definition marked_main_plan (entitlement : TEntitlement) : bool :=
  match productMetadata entitlement with
  | Some metadata =>
      match terms metadata with
      | Some t => default false (isMainPlan t)
      | None => false
      end
  | None => false
  end.

(** [getMainPlan()] *)
Definition getMainPlan (this : State OS) (sdk : ManagerAnswers)
  : option TEntitlement :=
  match manager this with
  | None => None
  | Some _ =>
      let entitlements := getCurrentEntitlements this sdk in
      if Nat.eqb (length entitlements) 0 then None
      else List.find marked_main_plan entitlements
  end.

(** [this.manager?.getConsumerId() ?? 'unknown'] (later revision only) *)
Definition getConsumerId (this : State OS) (sdk : ManagerAnswers) : string :=
  match manager this with
  | Some _ => answer_consumerId sdk
  | None => "unknown"
  end.

(** [this.getFeatureValue('planName') ?? 'KDIGI'] *)
Definition getPlanName (this : State OS) (sdk : ManagerAnswers) : FeatureValue :=
  default (FString "KDIGI") (getFeatureValue this sdk "planName").

(** The earlier revision's [getTeamProjectLimit()]:
    [this.getFeatureValue(LICENSE_QUOTAS.TEAM_PROJECT_LIMIT) ?? 0]. *)
Definition Rev1_getTeamProjectLimit (names : LicenseNames) (this : State OS)
    (sdk : ManagerAnswers) : FeatureValue :=
  default (FNumber 0) (getFeatureValue this sdk (TEAM_PROJECT_LIMIT names)).

(** The feature checks of the later revision.  Where the lookup is commented
    out the answer is written in; the remaining ones go through
    [isFeatureEnabled], whose own lookup is commented out. *)
Definition isSharingEnabled (this : State OS) : bool := true.
Definition isLogStreamingEnabled (this : State OS) : bool := true.
Definition isLdapEnabled (this : State OS) : bool := true.
Definition isSamlEnabled (this : State OS) : bool := true.
Definition isAiAssistantEnabled (names : LicenseNames) (this : State OS) : bool :=
  isFeatureEnabled this (AI_ASSISTANT names).
Definition isAskAiEnabled (names : LicenseNames) (this : State OS) : bool :=
  isFeatureEnabled this (ASK_AI names).
Definition isAdvancedExecutionFiltersEnabled (this : State OS) : bool := true.
Definition isAdvancedPermissionsLicensed (this : State OS) : bool := true.
Definition isDebugInEditorLicensed (this : State OS) : bool := true.
Definition isVariablesEnabled (this : State OS) : bool := true.
Definition isSourceControlLicensed (this : State OS) : bool := true.
Definition isExternalSecretsEnabled (this : State OS) : bool := true.
Definition isWorkflowHistoryLicensed (this : State OS) : bool := true.
Definition isWorkerViewLicensed (this : State OS) : bool := true.
Definition isShowNonProdBanner (this : State OS) : bool := false.
Definition isProjectRoleAdminLicensed (this : State OS) : bool := true.
Definition isProjectRoleEditorLicensed (this : State OS) : bool := true.
Definition isProjectRoleViewerLicensed (this : State OS) : bool := true.
Definition isCustomNpmRegistryEnabled (this : State OS) : bool := true.

(** The three role checks of the earlier revision still call
    [isFeatureEnabled]. *)
Definition Rev1_isProjectRoleAdminLicensed (names : LicenseNames)
    (this : State OS) : bool :=
  isFeatureEnabled this (PROJECT_ROLE_ADMIN names).
Definition Rev1_isProjectRoleEditorLicensed (names : LicenseNames)
    (this : State OS) : bool :=
  isFeatureEnabled this (PROJECT_ROLE_EDITOR names).
Definition Rev1_isProjectRoleViewerLicensed (names : LicenseNames)
    (this : State OS) : bool :=
  isFeatureEnabled this (PROJECT_ROLE_VIEWER names).

(** Every feature check of the later revision, in the order of the class. *)
Definition feature_checks (names : LicenseNames) (this : State OS) : list bool :=
  [ isSharingEnabled this; isLogStreamingEnabled this; isLdapEnabled this;
    isSamlEnabled this; isAiAssistantEnabled names this;
    isAskAiEnabled names this; isAdvancedExecutionFiltersEnabled this;
    isAdvancedPermissionsLicensed this; isDebugInEditorLicensed this;
    isBinaryDataS3Licensed this; isMultipleMainInstancesLicensed this;
    isVariablesEnabled this; isSourceControlLicensed this;
    isExternalSecretsEnabled this; isWorkflowHistoryLicensed this;
    isWorkerViewLicensed this; isProjectRoleAdminLicensed this;
    isProjectRoleEditorLicensed this; isProjectRoleViewerLicensed this;
    isCustomNpmRegistryEnabled this ].

(** Every quota of the later revision. *)
Definition quotas (env : Env) (this : State OS) : list Z :=
  [ getUsersLimit env this; getTriggerLimit env this;
    getVariablesLimit env this; getWorkflowHistoryPruneLimit env this;
    Rev2.getTeamProjectLimit env this ].

End Queries.

(** ** More observations on a trace *)

(** The handles of the managers constructed, oldest first. *)
Fixpoint constructed (t : list Event) : list nat :=
  match t with
  | [] => []
  | ManagerNew h :: t => h :: constructed t
  | _ :: t => constructed t
  end.

(** The handles on which [initialize()] was called, oldest first. *)
Fixpoint initialized (t : list Event) : list nat :=
  match t with
  | [] => []
  | ManagerInitialize h :: t => h :: initialized t
  | _ :: t => initialized t
  end.

(** The handles on which the manager's [shutdown()] was called. *)
Fixpoint shut_down (t : list Event) : list nat :=
  match t with
  | [] => []
  | ManagerShutdown h :: t => h :: shut_down t
  | _ :: t => shut_down t
  end.

(** The handles on which [reset()] was called. *)
Fixpoint reset_calls (t : list Event) : list nat :=
  match t with
  | [] => []
  | ManagerReset h :: t => h :: reset_calls t
  | _ :: t => reset_calls t
  end.

(** How often the publisher was fetched (earlier revision). *)
Fixpoint publisher_fetches (t : list Event) : nat :=
  match t with
  | [] => 0
  | GetPubSubPublisher :: t => S (publisher_fetches t)
  | _ :: t => publisher_fetches t
  end.

(** The keys read and the rows written in the settings table, oldest
    first. *)
Fixpoint reads (t : list Event) : list string :=
  match t with
  | [] => []
  | FindOne key :: t => key :: reads t
  | _ :: t => reads t
  end.

Fixpoint writes (t : list Event) : list (string * SettingsRow) :=
  match t with
  | [] => []
  | Upsert key row :: t => (key, row) :: writes t
  | _ :: t => writes t
  end.

(** The messages logged at a level, oldest first. *)
Fixpoint logged (level : LogLevel) (t : list Event) : list string :=
  match t with
  | [] => []
  | Logged l message :: t =>
      match level, l with
      | Debug, Debug | Warn, Warn | Error, Error => message :: logged level t
      | _, _ => logged level t
      end
  | _ :: t => logged level t
  end.

Section Effects.
Context {OS : Type}.

(** What a call does to the manager: it leaves it alone, or it installs a
    newly constructed one and calls its [initialize()]. *)
Definition leaves_manager (s s' : State OS) : Prop :=
  manager s' = manager s
  ∧ nextHandle s' = nextHandle s
  ∧ constructed (trace s') = constructed (trace s)
  ∧ initialized (trace s') = initialized (trace s).

Definition installs_manager (s s' : State OS) : Prop :=
  (∃ opts, manager s' = Some {| handle := nextHandle s; options := opts |})
  ∧ nextHandle s' = S (nextHandle s)
  ∧ constructed (trace s') = (constructed (trace s) ++ [nextHandle s])%list
  ∧ initialized (trace s') = (initialized (trace s) ++ [nextHandle s])%list.

(** What holds of the manager in every state a fresh object can reach:
    handles were given out in order, [initialize()] was called on each
    manager constructed and on nothing else, and the manager in place is the
    one constructed last. *)
Definition manager_in_order (s : State OS) : Prop :=
  constructed (trace s) = seq 0 (nextHandle s)
  ∧ initialized (trace s) = constructed (trace s)
  ∧ match manager s with
    | Some m => S (handle m) = nextHandle s
    | None => nextHandle s = 0
    end.

(** Feature-change notifications of the earlier revision, one after the
    other. *)
Definition Rev1_notifications `{OrchestrationService OS}
    (calls : list (Env * gmap string FeatureValue)) (s : State OS) : State OS :=
  foldl (λ s c, exec (Rev1.onFeatureChange c.1 c.2) s) s calls.

End Effects.

(** ** The named queries of [LicenseState] *)

Module LicenseStateQueries.
Import LicenseState.

(** [a ?? b] on the result of [getValue]. *)
Definition orElse (r : Result (option FeatureValue)) (fallback : FeatureValue)
  : Result FeatureValue :=
  match r with
  | ProviderNotSetError e => ProviderNotSetError e
  | Value (Some v) => Value v
  | Value None => Value fallback
  end.

Definition isLogStreamingLicensed (this : LicenseState) : Result bool := Value true.
Definition isLdapLicensed (this : LicenseState) : Result bool := Value true.
Definition isSamlLicensed (this : LicenseState) : Result bool := Value true.
Definition isApiKeyScopesLicensed (this : LicenseState) : Result bool := Value true.
Definition isAiAssistantLicensed (this : LicenseState) : Result bool := Value true.
Definition isAiCreditsLicensed (this : LicenseState) : Result bool :=
  isLicensed this "feat:aiCredits".
Definition isAdvancedExecutionFiltersLicensed (this : LicenseState) : Result bool :=
  Value true.
Definition isAdvancedPermissionsLicensed (this : LicenseState) : Result bool :=
  Value true.
Definition isDebugInEditorLicensed (this : LicenseState) : Result bool := Value true.
Definition isBinaryDataS3Licensed (this : LicenseState) : Result bool := Value true.
Definition isMultiMainLicensed (this : LicenseState) : Result bool := Value true.
Definition isVariablesLicensed (this : LicenseState) : Result bool := Value true.
Definition isSourceControlLicensed (this : LicenseState) : Result bool := Value true.
Definition isExternalSecretsLicensed (this : LicenseState) : Result bool := Value true.
Definition isWorkflowHistoryLicensed (this : LicenseState) : Result bool := Value true.
Definition isAPIDisabled (this : LicenseState) : Result bool := Value false.
Definition isWorkerViewLicensed (this : LicenseState) : Result bool := Value true.
Definition isProjectRoleAdminLicensed (this : LicenseState) : Result bool := Value true.
Definition isProjectRoleEditorLicensed (this : LicenseState) : Result bool := Value true.
Definition isProjectRoleViewerLicensed (this : LicenseState) : Result bool := Value true.
Definition isCustomNpmRegistryLicensed (this : LicenseState) : Result bool := Value true.
Definition isFoldersLicensed (this : LicenseState) : Result bool := Value true.
Definition isInsightsSummaryLicensed (this : LicenseState) : Result bool := Value true.
Definition isInsightsDashboardLicensed (this : LicenseState) : Result bool := Value true.
Definition isInsightsHourlyDataLicensed (this : LicenseState) : Result bool := Value true.

Definition getMaxActiveWorkflows (k : Constants) (this : LicenseState) : Result Z :=
  Value (UNLIMITED_LICENSE_QUOTA k).
Definition getMaxVariables (k : Constants) (this : LicenseState) : Result Z :=
  Value (UNLIMITED_LICENSE_QUOTA k).
Definition getWorkflowHistoryPruneQuota (k : Constants) (this : LicenseState)
  : Result Z :=
  Value (UNLIMITED_LICENSE_QUOTA k).
Definition getMaxTeamProjects (k : Constants) (this : LicenseState) : Result Z :=
  Value (UNLIMITED_LICENSE_QUOTA k).
Definition getInsightsRetentionMaxAge (this : LicenseState) : Result Z := Value 180%Z.
Definition getInsightsRetentionPruneInterval (this : LicenseState) : Result Z :=
  Value 24%Z.

(** [getInsightsMaxHistory()]: the first [return] is the one that runs. *)
Definition getInsightsMaxHistory (this : LicenseState) : Result FeatureValue :=
  orElse (getValue this "quota:insights:maxHistoryDays") (FNumber 7).

(** The boolean queries whose lookup is commented out, in the order of the
    class. *)
Definition fixed_booleans (this : LicenseState) : list (Result bool) :=
  [ isSharingLicensed this; isLogStreamingLicensed this; isLdapLicensed this;
    isSamlLicensed this; isApiKeyScopesLicensed this;
    isAiAssistantLicensed this; isAdvancedExecutionFiltersLicensed this;
    isAdvancedPermissionsLicensed this; isDebugInEditorLicensed this;
    isBinaryDataS3Licensed this; isMultiMainLicensed this;
    isVariablesLicensed this; isSourceControlLicensed this;
    isExternalSecretsLicensed this; isWorkflowHistoryLicensed this;
    isAPIDisabled this; isWorkerViewLicensed this;
    isProjectRoleAdminLicensed this; isProjectRoleEditorLicensed this;
    isProjectRoleViewerLicensed this; isCustomNpmRegistryLicensed this;
    isFoldersLicensed this; isInsightsSummaryLicensed this;
    isInsightsDashboardLicensed this; isInsightsHourlyDataLicensed this ].

(** The quotas whose lookup is commented out. *)
Definition fixed_quotas (k : Constants) (this : LicenseState) : list (Result Z) :=
  [ getMaxUsers k this; getMaxActiveWorkflows k this; getMaxVariables k this;
    getWorkflowHistoryPruneQuota k this; getInsightsRetentionMaxAge this;
    getInsightsRetentionPruneInterval this; getMaxTeamProjects k this ].

End LicenseStateQueries.

(** A provider for the examples: Ask AI is licensed, nothing else; there are
    no AI credits (the value is 0) and no entry for the insights history. *)
Definition sample_provider : LicenseState.LicenseProvider :=
  {| LicenseState.provider_isLicensed f := String.eqb f "feat:askAi";
     LicenseState.provider_getValue f :=
       if String.eqb f "quota:aiCredits" then Some (FNumber 0) else None |}.

Definition sample_names : LicenseNames :=
  {| AI_ASSISTANT := "feat:aiAssistant"; ASK_AI := "feat:askAi";
     PROJECT_ROLE_ADMIN := "feat:projectRole:admin";
     PROJECT_ROLE_EDITOR := "feat:projectRole:editor";
     PROJECT_ROLE_VIEWER := "feat:projectRole:viewer";
     TEAM_PROJECT_LIMIT := "quota:maxTeamProjects" |}.

Definition plan (id : string) (mark : option bool) : TEntitlement :=
  {| entitlement_id := id; productId := "product-" +:+ id;
     productMetadata := Some {| terms := Some {| isMainPlan := mark |} |} |}.

Definition addon (id : string) : TEntitlement :=
  {| entitlement_id := id; productId := "product-" +:+ id;
     productMetadata := None |}.

Definition sample_answers : ManagerAnswers :=
  {| answer_entitlements :=
       [addon "a"; plan "b" (Some false); plan "c" (Some true); plan "d" (Some true)];
     answer_featureValue f :=
       if String.eqb f "planName" then Some (FString "Enterprise") else None;
     answer_consumerId := "consumer-1" |}.

(** A live object: one [init] on a fresh one. *)
Definition live_license : State SampleOrchestration :=
  exec (Rev2.init (sample_env sample_config unset) sdk_ok false)
       (sample_license unset).

Definition first_manager : LicenseManager :=
  {| handle := 0; options := Rev2.init_options (sample_env sample_config unset) |}.

Definition sdk_initialize_throws : SdkRun :=
  {| construct := Returns; initialize := Throws true |}.

(** * Properties *)

(** ** Truthiness *)

Lemma truthy_nonempty s : truthy s = true ↔ s ≠ "".
Proof.
  unfold truthy. rewrite negb_true_iff. split.
  - intros H ->. by rewrite String.eqb_refl in H.
  - intros H. by apply String.eqb_neq.
Qed.

Lemma truthy_empty s : truthy s = false ↔ s = "".
Proof.
  unfold truthy. rewrite negb_false_iff. apply String.eqb_eq.
Qed.

(** ** Traces *)

Lemma constructions_snoc (t : list Event) (e : Event) :
  constructions (t ++ [e])
  = constructions t + (if is_ManagerNew e then 1 else 0).
Proof.
  unfold constructions. rewrite filter_app, length_app. f_equal.
  destruct e; reflexivity.
Qed.

Lemma storage_accesses_snoc (t : list Event) (e : Event) :
  storage_accesses (t ++ [e])
  = storage_accesses t + (if is_FindOne e || is_Upsert e then 1 else 0).
Proof.
  unfold storage_accesses. rewrite filter_app, length_app. f_equal.
  destruct e; reflexivity.
Qed.

Lemma published_app (t u : list Event) :
  published (t ++ u) = (published t ++ published u)%list.
Proof.
  induction t as [|e t IH]; [reflexivity|].
  destruct e; simpl; rewrite IH; reflexivity.
Qed.

Lemma readonly_calls_app (t u : list Event) :
  readonly_calls (t ++ u) = (readonly_calls t ++ readonly_calls u)%list.
Proof.
  induction t as [|e t IH]; [reflexivity|].
  destruct e; simpl; rewrite IH; reflexivity.
Qed.

Lemma licensed_calls_app (t u : list Event) :
  licensed_calls (t ++ u) = (licensed_calls t ++ licensed_calls u)%list.
Proof.
  induction t as [|e t IH]; [reflexivity|].
  destruct e; simpl; rewrite IH; reflexivity.
Qed.

(** ** The certificate store *)

Section CertificateStore.
Context `{OrchestrationService OS}.

Lemma loadCertStr_ephemeral (env : Env) (s : State OS) :
  truthy (license_cert (config env)) = true →
  loadCertStr env s = (license_cert (config env), s).
Proof. intros Hc. unfold loadCertStr. rewrite Hc. reflexivity. Qed.

Lemma saveCertStr_ephemeral (env : Env) (v : string) (s : State OS) :
  truthy (license_cert (config env)) = true →
  saveCertStr env v s = (tt, s).
Proof. intros Hc. unfold saveCertStr. rewrite Hc. reflexivity. Qed.

(** Without an ephemeral certificate a save writes exactly the row under the
    certificate key and touches nothing else. *)
Lemma saveCertStr_persisted (env : Env) (v : string) (s : State OS) :
  license_cert (config env) = "" →
  let key := SETTINGS_LICENSE_CERT_KEY (constants env) in
  let row := {| value := v; loadOnStartup := false |} in
  exec (saveCertStr env v) s
  = set_settingsRepository (<[key := row]> (settingsRepository s))
      (emit (Upsert key row) s).
Proof.
  intros Hc. unfold saveCertStr. rewrite Hc. reflexivity.
Qed.

(** Without an ephemeral certificate a load is one read of the certificate
    key; an absent row reads as the empty certificate. *)
Lemma loadCertStr_persisted (env : Env) (s : State OS) :
  license_cert (config env) = "" →
  let key := SETTINGS_LICENSE_CERT_KEY (constants env) in
  loadCertStr env s
  = (default "" (value <$> settingsRepository s !! key), emit (FindOne key) s).
Proof.
  intros Hc. unfold loadCertStr. rewrite Hc. simpl.
  unfold findOne, mbind, M_bind, modify, get, mret, M_ret. simpl.
  destruct (settingsRepository s !! _); reflexivity.
Qed.

(** C6.  When an ephemeral certificate is configured (the configuration key
    [license.cert] holds a non-empty string), [loadCertStr] returns that
    certificate whatever the settings table holds and without any call on the
    repository, and [saveCertStr] leaves the settings table -- indeed the
    whole state -- as it was, for every certificate passed to it. *)
Theorem ephemeral_certificate_wins (env : Env) (s : State OS) (v : string) :
  license_cert (config env) ≠ "" →
  eval (loadCertStr env) s = license_cert (config env)
  ∧ trace (exec (loadCertStr env) s) = trace s
  ∧ storage_accesses (trace (exec (loadCertStr env) s)) = storage_accesses (trace s)
  ∧ settingsRepository (exec (saveCertStr env v) s) = settingsRepository s
  ∧ exec (saveCertStr env v) s = s.
Proof.
  intros Hc%truthy_nonempty.
  unfold eval, exec.
  rewrite (loadCertStr_ephemeral env s Hc), (saveCertStr_ephemeral env v s Hc).
  repeat split; reflexivity.
Qed.

(** C9.  With no ephemeral certificate configured, [saveCertStr v] followed
    at once by [loadCertStr] returns [v], for every certificate [v] and every
    earlier content of the settings table. *)
Theorem save_then_load (env : Env) (s : State OS) (v : string) :
  license_cert (config env) = "" →
  eval (loadCertStr env) (exec (saveCertStr env v) s) = v.
Proof.
  intros Hc. unfold eval.
  rewrite (loadCertStr_persisted env _ Hc), (saveCertStr_persisted env v s Hc).
  simpl. rewrite lookup_insert_eq. reflexivity.
Qed.

(** A later save overwrites: the table keeps one row per key. *)
Lemma save_twice_then_load (env : Env) (s : State OS) (v w : string) :
  license_cert (config env) = "" →
  eval (loadCertStr env) (exec (saveCertStr env w) (exec (saveCertStr env v) s)) = w.
Proof.
  intros Hc. unfold eval.
  rewrite (loadCertStr_persisted env _ Hc), (saveCertStr_persisted env w _ Hc).
  simpl. rewrite lookup_insert_eq. reflexivity.
Qed.

(** Rows under other keys are out of a save's reach. *)
Lemma saveCertStr_other_keys (env : Env) (s : State OS) (v k : string) :
  k ≠ SETTINGS_LICENSE_CERT_KEY (constants env) →
  settingsRepository (exec (saveCertStr env v) s) !! k = settingsRepository s !! k.
Proof.
  intros Hk. unfold saveCertStr.
  destruct (truthy _); [reflexivity|].
  simpl. by rewrite lookup_insert_ne.
Qed.

End CertificateStore.

Lemma ephemeral_certificate_wins_witness :
  let env := sample_env (with_cert "ephemeral" sample_config) unset in
  let s := exec (saveCertStr (sample_env sample_config unset) "stored")
                (sample_license unset) in
  eval (loadCertStr env) s = "ephemeral"
  ∧ eval (loadCertStr (sample_env sample_config unset)) s = "stored"
  ∧ exec (saveCertStr env "other") s = s.
Proof.
  intros env s.
  pose proof (ephemeral_certificate_wins env s "other") as W.
  split; [apply W; discriminate|].
  split; [reflexivity|apply W; discriminate].
Defined.

Lemma save_then_load_witness :
  eval (loadCertStr (sample_env sample_config unset))
       (exec (saveCertStr (sample_env sample_config unset) "cert-1")
             (sample_license unset)) = "cert-1".
Proof.
  apply (save_then_load (sample_env sample_config unset)). reflexivity.
Defined.

(** ** [LicenseState]: no provider, no answer *)

Module LicenseStateFacts.
Import LicenseState.

(** Once a provider is installed the two queries are the provider's. *)
Lemma isLicensed_forwarded (p : LicenseProvider) (this : LicenseState)
    (feature : string) :
  isLicensed (setLicenseProvider p this) feature
  = Value (provider_isLicensed p feature).
Proof. reflexivity. Qed.

Lemma getValue_forwarded (p : LicenseProvider) (this : LicenseState)
    (feature : string) :
  getValue (setLicenseProvider p this) feature
  = Value (provider_getValue p feature).
Proof. reflexivity. Qed.

(** A later [setLicenseProvider] replaces the earlier provider. *)
Lemma setLicenseProvider_replaces (p q : LicenseProvider) (this : LicenseState) :
  setLicenseProvider q (setLicenseProvider p this) = setLicenseProvider q this.
Proof. reflexivity. Qed.

(** A state without provider is the state the class starts in. *)
Lemma no_provider_is_new (this : LicenseState) :
  licenseProvider this = None ↔ this = new.
Proof.
  split; [|by intros ->].
  destruct this as [p]; simpl. by intros ->.
Qed.

(** C5.  As long as no provider has been installed with
    [setLicenseProvider], [isLicensed] and [getValue] throw the
    provider-not-set error for every feature; neither returns a value, default
    or other. *)
Theorem queries_need_provider (this : LicenseState) (feature : string) :
  licenseProvider this = None →
  isLicensed this feature = providerNotSet
  ∧ getValue this feature = providerNotSet
  ∧ returns (isLicensed this feature) = false
  ∧ returns (getValue this feature) = false.
Proof.
  intros Hp. unfold isLicensed, getValue, assertProvider. rewrite Hp.
  repeat split; reflexivity.
Qed.

(** The named queries that go through the provider inherit the error; those
    whose lookup is commented out answer without one. *)
Lemma named_queries_without_provider (k : Constants) :
  isAskAiLicensed new = providerNotSet
  ∧ getMaxAiCredits new = providerNotSet
  ∧ isSharingLicensed new = Value true
  ∧ getMaxUsers k new = Value (UNLIMITED_LICENSE_QUOTA k).
Proof. repeat split; reflexivity. Qed.

Lemma queries_need_provider_witness :
  isLicensed new "feat:sharing"
  = ProviderNotSetError
      "Cannot query license state because license provider has not been set"
  ∧ returns (getValue new "quota:users") = false.
Proof.
  pose proof (queries_need_provider new "feat:sharing" eq_refl) as W1.
  pose proof (queries_need_provider new "quota:users" eq_refl) as W2.
  split; [apply W1|apply W2].
Defined.

End LicenseStateFacts.

(** ** Quotas *)

Section Quotas.
Context `{OrchestrationService OS}.

(** C10.  [isWithinUsersLimit] returns true in every state of the [License]
    object -- with or without a manager, shutting down or not, whatever the
    configuration: [getUsersLimit] returns the unlimited-quota constant and
    the result is compared with that same constant. *)
Theorem isWithinUsersLimit_always (env : Env) (this : State OS) :
  getUsersLimit env this = UNLIMITED_LICENSE_QUOTA (constants env)
  ∧ isWithinUsersLimit env this = true.
Proof.
  split; [reflexivity|].
  unfold isWithinUsersLimit, getUsersLimit. apply Z.eqb_refl.
Qed.

End Quotas.

(** ** Renewal *)

(** The earlier revision in closed form: main instance, multi-main setup
    enabled, automatic renewal on, leader. *)
Lemma Rev1_renewalEnabled_closed (env : Env) (t : N8nInstanceType) :
  Rev1.renewalEnabled env t
  = bool_decide (t = main)
    && multiMainSetup_enabled (config env)
    && license_autoRenewEnabled (config env)
    && bool_decide (multiMainSetup_instanceType (config env) = leader).
Proof.
  unfold Rev1.renewalEnabled.
  destruct (bool_decide (t = main)); simpl; [|reflexivity].
  destruct (multiMainSetup_enabled (config env)); reflexivity.
Qed.

(** The first row of the table fails: a main instance with automatic renewal
    configured and no multi-main setup does not renew, in either revision,
    although the rule as worded says it should. *)
Lemma renewal_disabled_on_single_main :
  let env := sample_env sample_config unset in
  instanceType (instanceSettings env) = main
  ∧ license_autoRenewEnabled (config env) = true
  ∧ multiMainSetup_enabled (config env) = false
  ∧ renewal_rule main true false false = true
  ∧ Rev2.renewalEnabled env = false
  ∧ Rev1.renewalEnabled env main = false.
Proof. repeat split; reflexivity. Qed.

(** C3, amended.  A main instance with automatic renewal configured and the
    multi-main setup disabled has renewal disabled; so has a main instance
    with automatic renewal configured, the multi-main setup enabled and
    another instance leading; and so has every instance that is not a main,
    whatever the other settings.  The later revision never renews; the
    earlier one renews on the leader of a multi-main setup only. *)
Theorem renewalEnabled_table (env : Env) (t : N8nInstanceType) :
  (t = main → license_autoRenewEnabled (config env) = true →
   multiMainSetup_enabled (config env) = false →
   Rev2.renewalEnabled env = false ∧ Rev1.renewalEnabled env t = false)
  ∧ (t = main → license_autoRenewEnabled (config env) = true →
     multiMainSetup_enabled (config env) = true →
     multiMainSetup_instanceType (config env) ≠ leader →
     Rev2.renewalEnabled env = false ∧ Rev1.renewalEnabled env t = false)
  ∧ (t ≠ main →
     Rev2.renewalEnabled env = false ∧ Rev1.renewalEnabled env t = false).
Proof.
  rewrite Rev1_renewalEnabled_closed. unfold Rev2.renewalEnabled.
  split; [|split].
  - intros -> _ ->. split; reflexivity.
  - intros -> -> -> Hl. split; [reflexivity|].
    simpl. by apply bool_decide_eq_false.
  - intros Ht. split; [reflexivity|].
    by rewrite (bool_decide_eq_false_2 _ Ht).
Qed.

Lemma renewalEnabled_table_witness :
  Rev1.renewalEnabled (sample_env sample_config unset) main = false
  ∧ Rev1.renewalEnabled (sample_env (queue_config true follower) follower) main = false
  ∧ Rev2.renewalEnabled (sample_env (queue_config true leader) leader) = false
  ∧ Rev1.renewalEnabled (sample_env (queue_config true leader) leader) worker = false.
Proof.
  destruct (renewalEnabled_table (sample_env sample_config unset) main)
    as (Row1 & _ & _).
  destruct (renewalEnabled_table
              (sample_env (queue_config true follower) follower) main)
    as (_ & Row2 & _).
  destruct (renewalEnabled_table
              (sample_env (queue_config true leader) leader) worker)
    as (_ & _ & Row3).
  split; [apply Row1; reflexivity|].
  split; [apply Row2; first [reflexivity|discriminate]|].
  split; apply Row3; discriminate.
Defined.

(** Where the earlier revision does renew. *)
Lemma Rev1_renews_on_leader :
  Rev1.renewalEnabled (sample_env (queue_config true leader) leader) main = true.
Proof. reflexivity. Qed.

(** ** The feature-change reactor *)

(** Unfolds the monad, so that a method applied to a state reduces to the
    state it leaves. *)
Ltac run_monad :=
  unfold new_LicenseManager, init_catch,
    orchestration_setMultiMainSetupLicensed, objectStore_setReadonly;
  unfold when, log;
  unfold exec, eval, mbind, M_bind, mret, M_ret, get, modify;
  simpl.

(** Splits on the conditions left in the goal. *)
Ltac split_conditions :=
  repeat (match goal with
          | |- context [if ?b then _ else _] => destruct b eqn:?
          end; simpl).

Lemma leader_not_follower (i : InstanceSettings) :
  isLeader i = true → isFollower i = false.
Proof.
  unfold isLeader, isFollower. intros Hl%bool_decide_eq_true.
  apply bool_decide_eq_false. congruence.
Qed.

Section Reactor.
Context `{OrchestrationService OS}.
Implicit Types (env : Env) (f : gmap string FeatureValue) (s : State OS).

(** The received feature set plays no part: every use of it is commented
    out. *)
Lemma Rev2_onFeatureChange_ignores_features env f f' :
  Rev2.onFeatureChange (OS := OS) env f = Rev2.onFeatureChange env f'.
Proof. reflexivity. Qed.

Lemma Rev1_onFeatureChange_ignores_features env f f' :
  Rev1.onFeatureChange (OS := OS) env f = Rev1.onFeatureChange env f'.
Proof. reflexivity. Qed.

(** The reactor never reaches [setReadonly], and it leaves the fields of the
    [License] object and the settings table alone. *)
Lemma Rev2_onFeatureChange_frame env f s :
  let s' := exec (Rev2.onFeatureChange env f) s in
  objectStoreReadonly s' = objectStoreReadonly s
  ∧ readonly_calls (trace s') = readonly_calls (trace s)
  ∧ manager s' = manager s
  ∧ isShuttingDown s' = isShuttingDown s
  ∧ settingsRepository s' = settingsRepository s
  ∧ constructions (trace s') = constructions (trace s).
Proof.
  unfold Rev2.onFeatureChange, Rev2.onFeatureChange_multiMain.
  destruct (String.eqb (executions_mode (config env)) "queue");
    destruct (multiMainSetup_enabled (config env));
    destruct (isFollower (instanceSettings env)); run_monad.
  all: rewrite ?andb_false_r, ?andb_true_r; simpl.
  all: split_conditions.
  all: rewrite ?readonly_calls_app, ?constructions_snoc; simpl.
  all: rewrite ?app_nil_r, ?Nat.add_0_r; auto 10.
Qed.

Lemma Rev1_onFeatureChange_frame env f s :
  let s' := exec (Rev1.onFeatureChange env f) s in
  objectStoreReadonly s' = objectStoreReadonly s
  ∧ readonly_calls (trace s') = readonly_calls (trace s)
  ∧ manager s' = manager s
  ∧ isShuttingDown s' = isShuttingDown s
  ∧ settingsRepository s' = settingsRepository s
  ∧ constructions (trace s') = constructions (trace s).
Proof.
  unfold Rev1.onFeatureChange, Rev1.onFeatureChange_multiMain,
    Rev1.onFeatureChange_publish.
  destruct (String.eqb (executions_mode (config env)) "queue");
    destruct (multiMainSetup_enabled (config env)); run_monad.
  all: rewrite ?andb_false_r, ?andb_true_r; simpl.
  all: split_conditions.
  all: rewrite ?readonly_calls_app, ?constructions_snoc; simpl.
  all: rewrite ?app_nil_r, ?Nat.add_0_r; auto 10.
Qed.

(** C4, amended.  When binary data is kept on S3, S3 is among the available
    modes and the received feature set does not grant S3, the reactor does
    not call [setReadonly] and the object store keeps the read-only flag it
    had: S3 is taken as licensed whatever the feature set says.  Running the
    reactor a second time on the same inputs again leaves the flag alone;
    both runs complete. *)
Theorem onFeatureChange_keeps_object_store env f s :
  binaryDataManager_mode (config env) = "s3" →
  includes (binaryDataManager_availableModes (config env)) "s3" = true →
  granted f "feat:binaryDataS3" = false →
  let once := exec (Rev2.onFeatureChange env f) s in
  let twice := exec (Rev2.onFeatureChange env f) once in
  objectStoreReadonly once = objectStoreReadonly s
  ∧ readonly_calls (trace once) = readonly_calls (trace s)
  ∧ objectStoreReadonly twice = objectStoreReadonly s
  ∧ readonly_calls (trace twice) = readonly_calls (trace s)
  ∧ Rev2.onFeatureChange env f s = (tt, once)
  ∧ Rev2.onFeatureChange env f once = (tt, twice).
Proof.
  intros _ _ _ once twice.
  destruct (Rev2_onFeatureChange_frame env f s) as (R1 & C1 & _).
  destruct (Rev2_onFeatureChange_frame env f once) as (R2 & C2 & _).
  fold once in R1, C1. fold twice in R2, C2.
  repeat split; try congruence.
  - unfold once, exec. by destruct (Rev2.onFeatureChange env f s) as [[] ?].
  - unfold twice, exec. by destruct (Rev2.onFeatureChange env f once) as [[] ?].
Qed.

(** C7.  In queue mode, with the multi-main setup enabled -- in the
    configuration and as the orchestration service reports it -- and this
    instance a follower, the reactor calls [setMultiMainSetupLicensed], logs
    that it skips the command, and returns: nothing is published on the
    command channel and the object store is not touched. *)
Theorem onFeatureChange_follower_stays_silent env f s :
  executions_mode (config env) = "queue" →
  multiMainSetup_enabled (config env) = true →
  isMultiMainSetupEnabled
    (setMultiMainSetupLicensed true (orchestrationService s)) = true →
  isFollower (instanceSettings env) = true →
  let s' := exec (Rev2.onFeatureChange env f) s in
  orchestrationService s'
    = setMultiMainSetupLicensed true (orchestrationService s)
  ∧ licensed_calls (trace s') = (licensed_calls (trace s) ++ [true])%list
  ∧ published (trace s') = published (trace s)
  ∧ trace s'
    = (trace s
       ++ [Logged Debug "License feature change detected";
           SetMultiMainSetupLicensed true;
           Logged Debug "[Multi-main setup] Instance is follower, skipping sending of 'reload-license' command..."])%list.
Proof.
  intros Hq Hm He Hf s'.
  assert (Hs' : s' = emit (Logged Debug "[Multi-main setup] Instance is follower, skipping sending of 'reload-license' command...")
      (set_orchestrationService
         (setMultiMainSetupLicensed true (orchestrationService s))
         (emit (SetMultiMainSetupLicensed true)
            (emit (Logged Debug "License feature change detected") s)))).
  { unfold s', Rev2.onFeatureChange, Rev2.onFeatureChange_multiMain.
    rewrite Hq, Hm, Hf. run_monad. rewrite He. reflexivity. }
  rewrite Hs'. simpl.
  rewrite !licensed_calls_app, !published_app, <- !app_assoc. simpl.
  rewrite !app_nil_r. auto.
Qed.

(** The earlier revision asks the orchestration service whether the instance
    is a follower, and has no opening log line. *)
Lemma Rev1_onFeatureChange_follower_stays_silent env f s :
  executions_mode (config env) = "queue" →
  multiMainSetup_enabled (config env) = true →
  isMultiMainSetupEnabled
    (setMultiMainSetupLicensed true (orchestrationService s)) = true →
  orchestration_isFollower
    (setMultiMainSetupLicensed true (orchestrationService s)) = true →
  let s' := exec (Rev1.onFeatureChange env f) s in
  orchestrationService s'
    = setMultiMainSetupLicensed true (orchestrationService s)
  ∧ licensed_calls (trace s') = (licensed_calls (trace s) ++ [true])%list
  ∧ published (trace s') = published (trace s).
Proof.
  intros Hq Hm He Hf.
  unfold Rev1.onFeatureChange, Rev1.onFeatureChange_multiMain.
  rewrite Hq, Hm. run_monad. rewrite He, Hf. simpl.
  rewrite !licensed_calls_app, !published_app. simpl.
  rewrite !app_nil_r. auto.
Qed.

(** When the first block does not return, queue mode publishes once. *)
Lemma Rev2_onFeatureChange_publishes env f s :
  executions_mode (config env) = "queue" →
  multiMainSetup_enabled (config env)
  && isMultiMainSetupEnabled
       (setMultiMainSetupLicensed true (orchestrationService s))
  && isFollower (instanceSettings env) = false →
  published (trace (exec (Rev2.onFeatureChange env f) s))
  = (published (trace s) ++ ["reload-license"])%list.
Proof.
  intros Hq Hc.
  unfold Rev2.onFeatureChange, Rev2.onFeatureChange_multiMain.
  rewrite Hq. simpl.
  destruct (multiMainSetup_enabled (config env)); run_monad.
  - simpl in Hc. rewrite Hc. simpl.
    rewrite ?andb_false_r. simpl.
    rewrite !published_app. simpl. by rewrite !app_nil_r.
  - rewrite ?andb_false_r. simpl.
    rewrite !published_app. simpl. by rewrite ?app_nil_r.
Qed.

(** C8.  In queue mode, when this instance is the leader or the multi-main
    setup is disabled -- in the configuration, or as the orchestration
    service reports it -- the reactor publishes exactly one message on the
    command channel, and its command is "reload-license". *)
Theorem onFeatureChange_publishes_once env f s :
  executions_mode (config env) = "queue" →
  isLeader (instanceSettings env) = true
  ∨ multiMainSetup_enabled (config env) = false
  ∨ isMultiMainSetupEnabled
      (setMultiMainSetupLicensed true (orchestrationService s)) = false →
  published (trace (exec (Rev2.onFeatureChange env f) s))
  = (published (trace s) ++ ["reload-license"])%list.
Proof.
  intros Hq Hc. apply Rev2_onFeatureChange_publishes; [done|].
  destruct Hc as [Hl%leader_not_follower | [-> | ->]].
  - rewrite Hl. apply andb_false_r.
  - reflexivity.
  - by rewrite andb_false_r.
Qed.

(** The earlier revision spells the command "reloadLicense" and fetches the
    publisher before its first use. *)
Lemma Rev1_onFeatureChange_publishes_once env f s :
  executions_mode (config env) = "queue" →
  orchestration_isFollower
    (setMultiMainSetupLicensed true (orchestrationService s)) = false
  ∨ multiMainSetup_enabled (config env) = false
  ∨ isMultiMainSetupEnabled
      (setMultiMainSetupLicensed true (orchestrationService s)) = false →
  published (trace (exec (Rev1.onFeatureChange env f) s))
  = (published (trace s) ++ ["reloadLicense"])%list.
Proof.
  intros Hq Hc.
  unfold Rev1.onFeatureChange, Rev1.onFeatureChange_multiMain,
    Rev1.onFeatureChange_publish.
  rewrite Hq. simpl.
  destruct (multiMainSetup_enabled (config env)) eqn:Hm; run_monad.
  - assert (Hskip : isMultiMainSetupEnabled
        (setMultiMainSetupLicensed true (orchestrationService s))
      && orchestration_isFollower
           (setMultiMainSetupLicensed true (orchestrationService s)) = false).
    { destruct Hc as [-> | [? | ->]]; [apply andb_false_r|done|done]. }
    rewrite Hskip. simpl. rewrite ?andb_false_r. simpl.
    destruct (redisPublisher s); simpl;
      rewrite !published_app; simpl; by rewrite ?app_nil_r.
  - rewrite ?andb_false_r. simpl.
    destruct (redisPublisher s); simpl;
      rewrite !published_app; simpl; by rewrite ?app_nil_r.
Qed.

(** Outside queue mode nothing is published. *)
Lemma Rev2_onFeatureChange_regular_mode env f s :
  String.eqb (executions_mode (config env)) "queue" = false →
  published (trace (exec (Rev2.onFeatureChange env f) s)) = published (trace s).
Proof.
  intros Hq. unfold Rev2.onFeatureChange, Rev2.onFeatureChange_multiMain.
  rewrite Hq. run_monad. rewrite ?andb_false_r. simpl.
  rewrite !published_app. simpl. by rewrite ?app_nil_r.
Qed.

End Reactor.

(** The scenario of C4 on the sample collaborators: S3 selected, available and
    not granted by the feature set, and the object store is still writable
    after the reactor ran, in both revisions; [setReadonly] was not called. *)
Lemma s3_unlicensed_stays_writable :
  let env := sample_env s3_config unset in
  let f : gmap string FeatureValue := {[ "feat:binaryDataS3" := FBool false ]} in
  let s2 := exec (Rev2.onFeatureChange env f) (sample_license unset) in
  let s1 := exec (Rev1.onFeatureChange env f) (sample_license unset) in
  binaryDataManager_mode (config env) = "s3"
  ∧ includes (binaryDataManager_availableModes (config env)) "s3" = true
  ∧ granted f "feat:binaryDataS3" = false
  ∧ objectStoreReadonly s2 = false
  ∧ readonly_calls (trace s2) = []
  ∧ objectStoreReadonly s1 = false
  ∧ readonly_calls (trace s1) = [].
Proof. vm_compute. repeat split; reflexivity. Qed.

Lemma onFeatureChange_keeps_object_store_witness :
  let env := sample_env s3_config unset in
  let f : gmap string FeatureValue := {[ "feat:binaryDataS3" := FBool false ]} in
  let once := exec (Rev2.onFeatureChange env f) (sample_license unset) in
  let twice := exec (Rev2.onFeatureChange env f) once in
  objectStoreReadonly once = false ∧ objectStoreReadonly twice = false.
Proof.
  intros env f once twice.
  destruct (onFeatureChange_keeps_object_store env f (sample_license unset))
    as (R1 & _ & R2 & _); [reflexivity..|].
  split; [exact R1|exact R2].
Defined.

Lemma onFeatureChange_follower_stays_silent_witness :
  let env := sample_env (queue_config true follower) follower in
  let s' := exec (Rev2.onFeatureChange env ∅) (sample_license follower) in
  sample_licensed (orchestrationService s') = true
  ∧ published (trace s') = [].
Proof.
  intros env s'.
  destruct (onFeatureChange_follower_stays_silent env ∅ (sample_license follower))
    as (Ho & _ & Hp & _); [reflexivity..|].
  split; [|exact Hp].
  fold s' in Ho. rewrite Ho. reflexivity.
Defined.

Lemma onFeatureChange_publishes_once_witness :
  published (trace (exec (Rev2.onFeatureChange
                            (sample_env (queue_config true leader) leader) ∅)
                         (sample_license leader)))
  = ["reload-license"]
  ∧ published (trace (exec (Rev2.onFeatureChange
                              (sample_env (queue_config false unset) unset) ∅)
                           (sample_license unset)))
    = ["reload-license"].
Proof.
  split.
  - apply (onFeatureChange_publishes_once
             (sample_env (queue_config true leader) leader) ∅
             (sample_license leader)); [reflexivity|left; reflexivity].
  - apply (onFeatureChange_publishes_once
             (sample_env (queue_config false unset) unset) ∅
             (sample_license unset)); [reflexivity|right; left; reflexivity].
Defined.

(** In queue mode a follower and a leader next to each other: the follower is
    silent, the leader publishes; the earlier revision's leader publishes
    under the older spelling. *)
Example follower_and_leader :
  published (trace (exec (Rev2.onFeatureChange
                            (sample_env (queue_config true follower) follower) ∅)
                         (sample_license follower))) = []
  ∧ published (trace (exec (Rev2.onFeatureChange
                              (sample_env (queue_config true leader) leader) ∅)
                           (sample_license leader))) = ["reload-license"]
  ∧ published (trace (exec (Rev1.onFeatureChange
                              (sample_env (queue_config true leader) leader) ∅)
                           (sample_license leader))) = ["reloadLicense"].
Proof. vm_compute. repeat split; reflexivity. Qed.

(** ** The lifecycle: one manager, and none after shutdown *)

Section Lifecycle.
Context `{OrchestrationService OS}.
Implicit Types (env : Env) (s : State OS) (sdk : SdkRun).

(** The first guard of [init]: an existing manager and no [forceRecreate]. *)
Lemma Rev2_init_present env sdk s m :
  manager s = Some m →
  exec (Rev2.init env sdk false) s
  = emit (Logged Warn "License manager already initialized or shutting down") s.
Proof.
  intros Hm. unfold Rev2.init, Rev2.init_begin. run_monad.
  rewrite Hm. reflexivity.
Qed.

(** The second guard: shutdown has begun.  Whichever guard fires, the call
    logs a warning and does nothing else. *)
Lemma Rev2_init_begin_shutting_down env ctor forceRecreate s :
  isShuttingDown s = true →
  ∃ message,
    Rev2.init_begin env ctor forceRecreate s
    = (None, emit (Logged Warn message) s).
Proof.
  intros Hs. unfold Rev2.init_begin. run_monad.
  destruct (bool_decide (is_Some (manager s)) && negb forceRecreate);
    simpl; [|rewrite Hs]; eexists; reflexivity.
Qed.

Lemma Rev2_init_shutting_down env sdk forceRecreate s :
  isShuttingDown s = true →
  ∃ message,
    exec (Rev2.init env sdk forceRecreate) s = emit (Logged Warn message) s.
Proof.
  intros Hs.
  destruct (Rev2_init_begin_shutting_down env (construct sdk) forceRecreate s Hs)
    as [message Hb].
  exists message. unfold Rev2.init, exec, mbind, M_bind. rewrite Hb. reflexivity.
Qed.

(** A constructor that throws leaves the object without manager, so the
    guards of the next call are open again. *)
Lemma Rev2_init_constructor_throws env sdk isError s :
  manager s = None → isShuttingDown s = false →
  construct sdk = Throws isError →
  let s' := exec (Rev2.init env sdk false) s in
  manager s' = None ∧ isShuttingDown s' = false
  ∧ nextHandle s' = nextHandle s
  ∧ constructions (trace s') = constructions (trace s).
Proof.
  intros Hm Hs Hc. unfold Rev2.init, Rev2.init_begin. run_monad.
  rewrite Hm; simpl. rewrite Hs; simpl. rewrite Hc; simpl.
  destruct isError; simpl; rewrite ?constructions_snoc; simpl;
    rewrite ?Nat.add_0_r; auto.
Qed.

(** A constructor that returns installs the new manager, whatever becomes of
    [initialize()]. *)
Lemma Rev2_init_constructs env sdk s :
  manager s = None → isShuttingDown s = false →
  construct sdk = Returns →
  let s' := exec (Rev2.init env sdk false) s in
  manager s'
    = Some {| handle := nextHandle s; options := Rev2.init_options env |}
  ∧ isShuttingDown s' = false
  ∧ constructions (trace s') = S (constructions (trace s)).
Proof.
  intros Hm Hs Hc. unfold Rev2.init, Rev2.init_begin, Rev2.init_settle. run_monad.
  rewrite Hm; simpl. rewrite Hs; simpl. rewrite Hc; simpl.
  destruct (initialize sdk) as [|[]]; simpl; rewrite ?constructions_snoc; simpl;
    rewrite ?Nat.add_0_r; auto with lia.
Qed.

(** [init] in pair form, for the methods that call it. *)
Lemma Rev2_init_shutting_down_pair env sdk forceRecreate s :
  isShuttingDown s = true →
  ∃ message,
    Rev2.init env sdk forceRecreate s = (tt, emit (Logged Warn message) s).
Proof.
  intros Hs.
  destruct (Rev2_init_begin_shutting_down env (construct sdk) forceRecreate s Hs)
    as [message Hb].
  exists message. unfold Rev2.init, mbind, M_bind. rewrite Hb. reflexivity.
Qed.

Lemma holds_still_emit s e :
  isShuttingDown s = true → is_ManagerNew e = false →
  holds_still s (emit e s).
Proof.
  intros Hs He. unfold holds_still. simpl.
  rewrite constructions_snoc, He. auto with lia.
Qed.

Lemma step_after_shutdown s call :
  isShuttingDown s = true → holds_still s (step s call).
Proof.
  intros Hs. destruct call as [env []]; unfold step; simpl.
  - destruct (Rev2_init_shutting_down env sdk forceRecreate s Hs) as [w ->].
    by apply holds_still_emit.
  - destruct (Rev2_init_begin_shutting_down env ctor forceRecreate s Hs)
      as [w Hb].
    unfold exec. rewrite Hb. by apply holds_still_emit.
  - unfold Rev2.init_settle, holds_still. destruct c as [|[]]; run_monad;
      rewrite ?constructions_snoc; simpl; auto with lia.
  - unfold Rev2.reinit, exec, mbind, M_bind, get, modify, mret, M_ret, log.
    simpl.
    destruct (manager s) as [m|] eqn:Hm; simpl.
    + destruct (Rev2_init_shutting_down_pair env sdk true
                  (emit (ManagerReset (handle m)) s) Hs) as [w ->].
      unfold holds_still. simpl. rewrite !constructions_snoc. simpl.
      auto with lia.
    + destruct (Rev2_init_shutting_down_pair env sdk true s Hs) as [w ->].
      unfold holds_still. simpl. rewrite !constructions_snoc. simpl.
      auto with lia.
  - unfold Rev2.activate, holds_still. run_monad.
    destruct (manager s) eqn:Hm; simpl; [destruct c; simpl|];
      rewrite ?constructions_snoc; simpl; auto with lia.
  - unfold Rev2.reload, holds_still. run_monad.
    destruct (manager s) eqn:Hm; simpl; [destruct c; simpl|];
      rewrite ?constructions_snoc; simpl; auto with lia.
  - unfold Rev2.renew, holds_still. run_monad.
    destruct (manager s) eqn:Hm; simpl; [destruct c; simpl|];
      rewrite ?constructions_snoc; simpl; auto with lia.
  - unfold Rev2.shutdown, Rev2.shutdown_begin, Rev2.shutdown_settle, holds_still.
    run_monad.
    destruct (manager s) eqn:Hm; simpl; [destruct c; simpl|];
      rewrite ?constructions_snoc; simpl; auto with lia.
  - unfold Rev2.shutdown_begin, holds_still. run_monad.
    destruct (manager s) eqn:Hm; simpl;
      rewrite ?constructions_snoc; simpl; auto with lia.
  - unfold Rev2.shutdown_settle, holds_still. destruct c; run_monad;
      rewrite ?constructions_snoc; simpl; auto with lia.
  - unfold loadCertStr, findOne, holds_still. run_monad.
    destruct (truthy _); simpl;
      rewrite ?constructions_snoc; simpl; auto with lia.
  - unfold saveCertStr, upsert, holds_still. run_monad.
    destruct (truthy _); simpl;
      rewrite ?constructions_snoc; simpl; auto with lia.
  - destruct (Rev2_onFeatureChange_frame env features s)
      as (_ & _ & Hm & Hd & _ & Hc).
    unfold holds_still. rewrite Hm, Hd, Hc. auto.
Qed.

Lemma run_after_shutdown calls s :
  isShuttingDown s = true → holds_still s (run calls s).
Proof.
  revert s. induction calls as [|call calls IH]; intros s Hs.
  - unfold holds_still. auto.
  - destruct (step_after_shutdown s call Hs) as (Hs' & Hm' & Hc').
    destruct (IH (step s call) Hs') as (Hs'' & Hm'' & Hc'').
    unfold holds_still. simpl. rewrite Hm'', Hc''. auto.
Qed.

(** C2.  From the moment [shutdown] has set its flag -- which it does before
    it calls, let alone awaits, the manager's own [shutdown()] -- whatever
    calls follow on the object, every call to [init], with or without
    [forceRecreate], logs a warning and returns: no manager is constructed
    and the manager field keeps its value. *)
Theorem no_init_after_shutdown s (calls : list (Env * Call)) env sdk
    (forceRecreate : bool) :
  let s1 := exec Rev2.shutdown_begin s in
  let s2 := run calls s1 in
  isShuttingDown s1 = true
  ∧ isShuttingDown s2 = true
  ∧ manager s2 = manager s
  ∧ constructions (trace s2) = constructions (trace s)
  ∧ ∃ message,
      exec (Rev2.init env sdk forceRecreate) s2 = emit (Logged Warn message) s2.
Proof.
  intros s1 s2.
  assert (H1 : isShuttingDown s1 = true ∧ manager s1 = manager s
               ∧ constructions (trace s1) = constructions (trace s)).
  { unfold s1, Rev2.shutdown_begin. run_monad.
    destruct (manager s) eqn:Hm; simpl;
      rewrite ?constructions_snoc; simpl; auto with lia. }
  destruct H1 as (Hs1 & Hm1 & Hc1).
  destruct (run_after_shutdown calls s1 Hs1) as (Hs2 & Hm2 & Hc2).
  fold s2 in Hs2, Hm2, Hc2.
  repeat split; [done|done|congruence|congruence|].
  by apply Rev2_init_shutting_down.
Qed.

(** The whole [shutdown], settled or thrown, leaves the flag set as well. *)
Lemma shutdown_sets_flag s (c : Completion) :
  isShuttingDown (exec (Rev2.shutdown c) s) = true.
Proof.
  unfold Rev2.shutdown, Rev2.shutdown_begin, Rev2.shutdown_settle. run_monad.
  destruct (manager s); simpl; [destruct c|]; reflexivity.
Qed.

(** The same two guards stand in the earlier revision. *)
Lemma Rev1_init_present env sdk (t : N8nInstanceType) s m :
  manager s = Some m →
  exec (Rev1.init env sdk t false) s
  = emit (Logged Warn "License manager already initialized or shutting down") s.
Proof.
  intros Hm. unfold Rev1.init, Rev1.init_begin. run_monad.
  rewrite Hm. reflexivity.
Qed.

Lemma Rev1_init_shutting_down env sdk (t : N8nInstanceType)
    (forceRecreate : bool) s :
  isShuttingDown s = true →
  ∃ message,
    exec (Rev1.init env sdk t forceRecreate) s = emit (Logged Warn message) s.
Proof.
  intros Hs. unfold Rev1.init, Rev1.init_begin. run_monad.
  destruct (bool_decide (is_Some (manager s)) && negb forceRecreate);
    simpl; [|rewrite Hs]; eexists; reflexivity.
Qed.

Lemma Rev1_shutdown_sets_flag s :
  isShuttingDown (exec Rev1.shutdown s) = true.
Proof.
  unfold Rev1.shutdown. run_monad. destruct (manager s); reflexivity.
Qed.

(** *** Calls to [init()] in a row *)

Lemma inits_nil s : inits [] s = s.
Proof. reflexivity. Qed.

Lemma inits_cons (c : Env * SdkRun) calls s :
  inits (c :: calls) s = inits calls (exec (Rev2.init c.1 c.2 false) s).
Proof. reflexivity. Qed.

Lemma inits_app (calls calls' : list (Env * SdkRun)) s :
  inits (calls ++ calls') s = inits calls' (inits calls s).
Proof.
  unfold inits, run. by rewrite fmap_app, foldl_app.
Qed.

(** With a manager in place, calls without [forceRecreate] only add their
    warning to the log. *)
Lemma inits_present (calls : list (Env * SdkRun)) s m :
  manager s = Some m →
  manager (inits calls s) = Some m
  ∧ isShuttingDown (inits calls s) = isShuttingDown s
  ∧ nextHandle (inits calls s) = nextHandle s
  ∧ trace (inits calls s)
    = (trace s
       ++ replicate (length calls)
            (Logged Warn "License manager already initialized or shutting down"))%list.
Proof.
  revert s. induction calls as [|c calls IH]; intros s Hm.
  - rewrite inits_nil. simpl. by rewrite app_nil_r.
  - rewrite inits_cons, (Rev2_init_present _ _ _ m Hm).
    destruct (IH (emit (Logged Warn "License manager already initialized or shutting down") s) Hm)
      as (IHm & IHs & IHn & IHt).
    rewrite IHm, IHs, IHn, IHt. simpl. by rewrite <- app_assoc.
Qed.

Lemma constructions_warnings (t : list Event) (n : nat) (message : string) :
  constructions (t ++ replicate n (Logged Warn message)) = constructions t.
Proof.
  revert t. induction n as [|n IH]; intros t; simpl.
  - by rewrite app_nil_r.
  - rewrite cons_middle, app_assoc, IH, constructions_snoc. simpl. lia.
Qed.

(** Calls whose constructor throws change nothing that the guards read. *)
Lemma inits_failed (failed : list (Env * SdkRun)) s :
  manager s = None → isShuttingDown s = false →
  Forall (λ c, construct c.2 ≠ Returns) failed →
  manager (inits failed s) = None
  ∧ isShuttingDown (inits failed s) = false
  ∧ nextHandle (inits failed s) = nextHandle s
  ∧ constructions (trace (inits failed s)) = constructions (trace s).
Proof.
  revert s. induction failed as [|c failed IH]; intros s Hm Hs Hf.
  - rewrite inits_nil. auto.
  - apply Forall_cons in Hf as [Hc Hf]. rewrite inits_cons.
    destruct (construct c.2) as [|isError] eqn:Hctor; [done|].
    destruct (Rev2_init_constructor_throws c.1 c.2 isError s Hm Hs Hctor)
      as (Hm' & Hs' & Hn' & Hc').
    destruct (IH _ Hm' Hs' Hf) as (IHm & IHs & IHn & IHc).
    rewrite IHm, IHs, IHn, IHc. auto.
Qed.

(** C1, amended.  In a row of calls to [init()] without [forceRecreate] on
    an object that has no manager and is not shutting down, a call whose
    [LicenseManager] constructor throws constructs nothing and leaves the
    next call free to try; the first call whose constructor returns
    constructs the manager; every call after that one returns early with a
    warning and does not modify the handle.  So exactly one manager is
    constructed in the row, and its identity is unchanged from then on. *)
Theorem init_constructs_once (failed later : list (Env * SdkRun)) env sdk s :
  manager s = None → isShuttingDown s = false →
  Forall (λ c, construct c.2 ≠ Returns) failed →
  construct sdk = Returns →
  let m := {| handle := nextHandle s; options := Rev2.init_options env |} in
  let s1 := inits (failed ++ [(env, sdk)]) s in
  let s2 := inits later s1 in
  manager (inits failed s) = None
  ∧ constructions (trace (inits failed s)) = constructions (trace s)
  ∧ manager s1 = Some m
  ∧ constructions (trace s1) = S (constructions (trace s))
  ∧ manager s2 = Some m
  ∧ constructions (trace s2) = S (constructions (trace s))
  ∧ trace s2
    = (trace s1
       ++ replicate (length later)
            (Logged Warn "License manager already initialized or shutting down"))%list.
Proof.
  intros Hm Hs Hf Hc m s1 s2.
  destruct (inits_failed failed s Hm Hs Hf) as (Fm & Fs & Fn & Fc).
  assert (H1 : manager s1 = Some m
               ∧ constructions (trace s1) = S (constructions (trace s))).
  { unfold s1. rewrite inits_app, inits_cons, inits_nil. simpl.
    destruct (Rev2_init_constructs env sdk _ Fm Fs Hc) as (Cm & _ & Cc).
    rewrite Cm, Cc, Fn, Fc. auto. }
  destruct H1 as (Hm1 & Hc1).
  destruct (inits_present later s1 m Hm1) as (Pm & _ & _ & Pt).
  fold s2 in Pm, Pt.
  repeat split; try done.
  rewrite Pt, constructions_warnings. done.
Qed.

(** *** The guards from the caller's side *)

(** X1.  With a manager in place, [init()] without [forceRecreate] logs one
    warning and changes nothing else: the manager, its identity and the
    number of managers constructed stay as they were. *)
Theorem init_with_manager_is_noop env sdk s m :
  manager s = Some m →
  let s' := exec (Rev2.init env sdk false) s in
  s' = emit (Logged Warn "License manager already initialized or shutting down") s
  ∧ manager s' = Some m
  ∧ nextHandle s' = nextHandle s
  ∧ constructions (trace s') = constructions (trace s).
Proof.
  intros Hm s'. unfold s'. rewrite (Rev2_init_present env sdk s m Hm). simpl.
  rewrite constructions_snoc. simpl. auto with lia.
Qed.

(** X2.  Without a manager, [activate], [reload] and [renew] return at once
    and leave the state as it is, [shutdown] only sets its flag, and the two
    string queries give their fallbacks. *)
Theorem methods_without_manager s (activationKey jwt info : string)
    (c : Completion) :
  manager s = None →
  Rev2.activate activationKey c s = (Returns, s)
  ∧ Rev2.reload c s = (Returns, s)
  ∧ Rev2.renew c s = (Returns, s)
  ∧ Rev2.shutdown c s = (Returns, set_isShuttingDown true s)
  ∧ getManagementJwt s jwt = ""
  ∧ getInfo s info = "n/a".
Proof.
  intros Hm.
  unfold Rev2.activate, Rev2.reload, Rev2.renew, Rev2.shutdown,
    Rev2.shutdown_begin, getManagementJwt, getInfo.
  run_monad. rewrite Hm. auto 10.
Qed.

(** X3.  The manager of the later revision is built for the instance type at
    hand: an instance that is not a main runs offline and gets the empty
    functions for saving the certificate and for feature changes; a main gets
    the real methods.  Renewal is off in either case. *)
Theorem init_options_by_instance_type env :
  let isMainInstance := bool_decide (instanceType (instanceSettings env) = main) in
  let opts := Rev2.init_options env in
  offlineMode opts = negb isMainInstance
  ∧ saveCertStr_wired opts = isMainInstance
  ∧ onFeatureChange_wired opts = isMainInstance
  ∧ autoRenewEnabled opts = false
  ∧ renewOnInit opts = false.
Proof. repeat split; reflexivity. Qed.

End Lifecycle.

(** The first call's constructor throws, the second call's returns: the
    second call is the one that constructs the manager. *)
Lemma init_after_failed_constructor :
  let env := sample_env sample_config unset in
  let s1 := exec (Rev2.init env sdk_constructor_throws false) (sample_license unset) in
  let s2 := exec (Rev2.init env sdk_ok false) s1 in
  manager s1 = None
  ∧ constructions (trace s1) = 0
  ∧ manager s2 = Some {| handle := 0; options := Rev2.init_options env |}
  ∧ constructions (trace s2) = 1.
Proof. vm_compute. repeat split; reflexivity. Qed.

Lemma init_constructs_once_witness :
  let env := sample_env sample_config unset in
  let s := sample_license unset in
  let failed := [(env, sdk_constructor_throws)] in
  let later := [(env, sdk_ok); (env, sdk_constructor_throws)] in
  let s2 := inits later (inits (failed ++ [(env, sdk_ok)]) s) in
  manager s2 = Some {| handle := nextHandle s; options := Rev2.init_options env |}
  ∧ constructions (trace s2) = S (constructions (trace s)).
Proof.
  intros env s failed later s2.
  destruct (init_constructs_once failed later env sdk_ok s)
    as (_ & _ & _ & _ & Hm & Hc & _);
    [reflexivity|reflexivity| |reflexivity|].
  - constructor; [discriminate|constructor].
  - exact (conj Hm Hc).
Defined.

(** The ordinary start: the first call constructs, the later ones do not. *)
Example three_inits :
  let env := sample_env sample_config unset in
  let s := inits [(env, sdk_ok); (env, sdk_ok); (env, sdk_ok)] (sample_license unset) in
  (handle <$> manager s) = Some 0 ∧ nextHandle s = 1 ∧ constructions (trace s) = 1.
Proof. vm_compute. repeat split; reflexivity. Qed.

(** [reinit] on a live object does construct a second manager: this is what
    [forceRecreate] is for. *)
Example reinit_recreates :
  let env := sample_env sample_config unset in
  let s := run [(env, Init sdk_ok false); (env, Reinit sdk_ok)] (sample_license unset) in
  (handle <$> manager s) = Some 1 ∧ constructions (trace s) = 2.
Proof. vm_compute. repeat split; reflexivity. Qed.

(** After shutdown it no longer does. *)
Example reinit_after_shutdown :
  let env := sample_env sample_config unset in
  let s := run [(env, Init sdk_ok false); (env, ShutdownBegin);
                (env, Reinit sdk_ok); (env, Init sdk_ok true);
                (env, ShutdownSettle Returns); (env, Init sdk_ok false)]
               (sample_license unset) in
  (handle <$> manager s) = Some 0 ∧ constructions (trace s) = 1.
Proof. vm_compute. repeat split; reflexivity. Qed.

Lemma init_with_manager_is_noop_witness :
  let env := sample_env sample_config unset in
  let s := exec (Rev2.init env sdk_ok false) (sample_license unset) in
  manager (exec (Rev2.init env sdk_ok false) s)
  = Some {| handle := 0; options := Rev2.init_options env |}.
Proof.
  intros env s.
  apply (init_with_manager_is_noop env sdk_ok s
           {| handle := 0; options := Rev2.init_options env |}).
  reflexivity.
Defined.

Lemma methods_without_manager_witness :
  Rev2.reload Returns (sample_license unset) = (Returns, sample_license unset)
  ∧ getInfo (sample_license unset) "license" = "n/a".
Proof.
  destruct (methods_without_manager (sample_license unset) "key" "jwt" "license"
              Returns eq_refl) as (_ & Hr & _ & _ & _ & Hi).
  exact (conj Hr Hi).
Defined.

(** * Further properties *)

(** ** More on traces *)

Lemma constructed_app (t u : list Event) :
  constructed (t ++ u) = (constructed t ++ constructed u)%list.
Proof.
  induction t as [|e t IH]; [reflexivity|].
  destruct e; simpl; rewrite IH; reflexivity.
Qed.

Lemma initialized_app (t u : list Event) :
  initialized (t ++ u) = (initialized t ++ initialized u)%list.
Proof.
  induction t as [|e t IH]; [reflexivity|].
  destruct e; simpl; rewrite IH; reflexivity.
Qed.

Lemma shut_down_app (t u : list Event) :
  shut_down (t ++ u) = (shut_down t ++ shut_down u)%list.
Proof.
  induction t as [|e t IH]; [reflexivity|].
  destruct e; simpl; rewrite IH; reflexivity.
Qed.

Lemma reset_calls_app (t u : list Event) :
  reset_calls (t ++ u) = (reset_calls t ++ reset_calls u)%list.
Proof.
  induction t as [|e t IH]; [reflexivity|].
  destruct e; simpl; rewrite IH; reflexivity.
Qed.

Lemma publisher_fetches_app (t u : list Event) :
  publisher_fetches (t ++ u) = publisher_fetches t + publisher_fetches u.
Proof.
  induction t as [|e t IH]; [reflexivity|].
  destruct e; simpl; rewrite IH; reflexivity.
Qed.

Lemma reads_app (t u : list Event) : reads (t ++ u) = (reads t ++ reads u)%list.
Proof.
  induction t as [|e t IH]; [reflexivity|].
  destruct e; simpl; rewrite IH; reflexivity.
Qed.

Lemma writes_app (t u : list Event) :
  writes (t ++ u) = (writes t ++ writes u)%list.
Proof.
  induction t as [|e t IH]; [reflexivity|].
  destruct e; simpl; rewrite IH; reflexivity.
Qed.

Lemma logged_app (level : LogLevel) (t u : list Event) :
  logged level (t ++ u) = (logged level t ++ logged level u)%list.
Proof.
  induction t as [|e t IH]; [reflexivity|].
  destruct e as [l ?| | | | | | | | | | | | | | |]; simpl; rewrite ?IH; try reflexivity.
  destruct level, l; simpl; rewrite ?IH; reflexivity.
Qed.

(** Pushes an observation through the events a method appended. *)
Ltac observe :=
  rewrite ?constructed_app, ?initialized_app, ?shut_down_app, ?reset_calls_app,
    ?publisher_fetches_app, ?reads_app, ?writes_app, ?logged_app,
    ?published_app, ?licensed_calls_app, ?readonly_calls_app;
  simpl;
  rewrite ?app_nil_r, ?Nat.add_0_r.

(** ** What a call does to the manager *)

Section EffectFacts.
Context `{OrchestrationService OS}.
Implicit Types (env : Env) (s : State OS) (sdk : SdkRun).

Lemma leaves_manager_refl s : leaves_manager s s.
Proof. by repeat split. Qed.

(** A step that adds events, none of them a construction or a call to
    [initialize()], and keeps the two fields. *)
Lemma leaves_manager_intro s s' :
  manager s' = manager s → nextHandle s' = nextHandle s →
  constructed (trace s') = constructed (trace s) →
  initialized (trace s') = initialized (trace s) →
  leaves_manager s s'.
Proof. by repeat split. Qed.

Lemma init_begin_effect env ctor (forceRecreate : bool) s :
  let s' := exec (Rev2.init_begin env ctor forceRecreate) s in
  leaves_manager s s' ∨ installs_manager s s'.
Proof.
  unfold Rev2.init_begin. run_monad.
  destruct (bool_decide (is_Some (manager s)) && negb forceRecreate); simpl.
  { left. apply leaves_manager_intro; simpl; observe; reflexivity. }
  destruct (isShuttingDown s); simpl.
  { left. apply leaves_manager_intro; simpl; observe; reflexivity. }
  destruct ctor as [|[]]; simpl.
  - right. unfold installs_manager. simpl. observe. eauto.
  - left. apply leaves_manager_intro; simpl; observe; reflexivity.
  - left. apply leaves_manager_intro; simpl; observe; reflexivity.
Qed.

Lemma emit_effect (e : Event) s s0 :
  is_ManagerNew e = false →
  (∀ h, e ≠ ManagerInitialize h) →
  (leaves_manager s0 s → leaves_manager s0 (emit e s))
  ∧ (installs_manager s0 s → installs_manager s0 (emit e s)).
Proof.
  intros Hn Hi. unfold leaves_manager, installs_manager. simpl.
  assert (Hc : constructed (trace s ++ [e]) = constructed (trace s)).
  { observe. destruct e; try discriminate; simpl; by rewrite ?app_nil_r. }
  assert (Hz : initialized (trace s ++ [e]) = initialized (trace s)).
  { observe. destruct e; simpl; rewrite ?app_nil_r; try reflexivity.
    by destruct (Hi h). }
  rewrite Hc, Hz. tauto.
Qed.

Lemma init_effect env sdk (forceRecreate : bool) s :
  let s' := exec (Rev2.init env sdk forceRecreate) s in
  leaves_manager s s' ∨ installs_manager s s'.
Proof.
  pose proof (init_begin_effect env (construct sdk) forceRecreate s) as Hb.
  unfold Rev2.init, exec, mbind, M_bind in *. simpl in Hb.
  destruct (Rev2.init_begin env (construct sdk) forceRecreate s) as [[m|] s1];
    simpl in *; [|exact Hb].
  unfold Rev2.init_settle. destruct (initialize sdk) as [|[]]; run_monad.
  - destruct Hb as [Hb|Hb]; [left|right];
      repeat (apply emit_effect; [reflexivity|discriminate|]); exact Hb.
  - destruct Hb as [Hb|Hb]; [left|right];
      repeat (apply emit_effect; [reflexivity|discriminate|]); exact Hb.
  - exact Hb.
Qed.

Lemma step_effect s call :
  leaves_manager s (step s call) ∨ installs_manager s (step s call).
Proof.
  destruct call as [env []]; unfold step; simpl.
  - apply init_effect.
  - apply init_begin_effect.
  - left. unfold Rev2.init_settle. destruct c as [|[]]; run_monad;
      apply leaves_manager_intro; simpl; observe; reflexivity.
  - unfold Rev2.reinit, exec, mbind, M_bind, get, modify, mret, M_ret, log.
    simpl.
    destruct (manager s) as [m|] eqn:Hm; simpl.
    + pose proof (init_effect env sdk true (emit (ManagerReset (handle m)) s))
        as He.
      unfold exec in He. simpl in He.
      destruct (Rev2.init env sdk true (emit (ManagerReset (handle m)) s))
        as [[] s1]; simpl in *.
      destruct He as [He|He]; [left|right];
        (apply emit_effect; [reflexivity|discriminate|]).
      * destruct He as (E1 & E2 & E3 & E4). simpl in *.
        apply leaves_manager_intro; [done|done|..].
        -- rewrite E3. by observe.
        -- rewrite E4. by observe.
      * destruct He as (E1 & E2 & E3 & E4). simpl in *.
        split; [done|]. split; [done|]. split.
        -- rewrite E3. by observe.
        -- rewrite E4. by observe.
    + pose proof (init_effect env sdk true s) as He.
      unfold exec in He. simpl in He.
      destruct (Rev2.init env sdk true s) as [[] s1]; simpl in *.
      destruct He as [He|He]; [left|right];
        (apply emit_effect; [reflexivity|discriminate|]); exact He.
  - left. unfold Rev2.activate. run_monad.
    destruct (manager s) eqn:Hm; simpl; [destruct c; simpl|];
      apply leaves_manager_intro; simpl; observe; done.
  - left. unfold Rev2.reload. run_monad.
    destruct (manager s) eqn:Hm; simpl; [destruct c; simpl|];
      apply leaves_manager_intro; simpl; observe; done.
  - left. unfold Rev2.renew. run_monad.
    destruct (manager s) eqn:Hm; simpl; [destruct c; simpl|];
      apply leaves_manager_intro; simpl; observe; done.
  - left. unfold Rev2.shutdown, Rev2.shutdown_begin, Rev2.shutdown_settle.
    run_monad.
    destruct (manager s) eqn:Hm; simpl; [destruct c; simpl|];
      apply leaves_manager_intro; simpl; observe; done.
  - left. unfold Rev2.shutdown_begin. run_monad.
    destruct (manager s) eqn:Hm; simpl;
      apply leaves_manager_intro; simpl; observe; done.
  - left. unfold Rev2.shutdown_settle. destruct c; run_monad;
      apply leaves_manager_intro; simpl; observe; done.
  - left. unfold loadCertStr, findOne. run_monad.
    destruct (truthy _); simpl;
      apply leaves_manager_intro; simpl; observe; done.
  - left. unfold saveCertStr, upsert. run_monad.
    destruct (truthy _); simpl;
      apply leaves_manager_intro; simpl; observe; done.
  - left. unfold Rev2.onFeatureChange, Rev2.onFeatureChange_multiMain.
    destruct (String.eqb (executions_mode (config env)) "queue");
      destruct (multiMainSetup_enabled (config env));
      destruct (isFollower (instanceSettings env)); run_monad.
    all: rewrite ?andb_false_r, ?andb_true_r; simpl.
    all: split_conditions.
    all: apply leaves_manager_intro; simpl; observe; done.
Qed.

Lemma manager_in_order_new (o : OS) settings :
  manager_in_order (License_new o settings).
Proof. by repeat split. Qed.

Lemma manager_in_order_step s call :
  manager_in_order s → manager_in_order (step s call).
Proof.
  intros (Ic & Ii & Im).
  destruct (step_effect s call) as [(E1 & E2 & E3 & E4)|([opts E1] & E2 & E3 & E4)];
    unfold manager_in_order; rewrite E1, E2, E3, E4.
  - done.
  - rewrite Ii, Ic, seq_S. simpl. done.
Qed.

Lemma manager_in_order_run calls s :
  manager_in_order s → manager_in_order (run calls s).
Proof.
  revert s. induction calls as [|call calls IH]; intros s Hs; [done|].
  apply IH, manager_in_order_step, Hs.
Qed.

End EffectFacts.

(** ** The manager over the life of the object *)

Section ManagerFacts.
Context `{OrchestrationService OS}.
Implicit Types (env : Env) (s : State OS) (sdk : SdkRun).

Lemma last_seq (n : nat) : last (seq 0 (S n)) = Some n.
Proof. rewrite seq_S. simpl. apply last_snoc. Qed.

(** X4.  In every state that a fresh [License] object reaches, through any
    calls in any order, the manager it holds is the one constructed last --
    also after a forced re-creation whose constructor threw -- and it holds
    none exactly when no constructor call has returned yet. *)
Theorem current_manager_is_last_constructed (o : OS)
    (settings : gmap string SettingsRow) (calls : list (Env * Call)) :
  let s := run calls (License_new o settings) in
  handle <$> manager s = last (constructed (trace s))
  ∧ (manager s = None ↔ constructed (trace s) = []).
Proof.
  intros s.
  destruct (manager_in_order_run calls _ (manager_in_order_new o settings))
    as (Ic & _ & Im).
  fold s in Ic, Im. rewrite Ic.
  destruct (manager s) as [m|]; simpl.
  - rewrite <- Im, last_seq. by repeat split.
  - rewrite Im. by repeat split.
Qed.

(** X5.  In every state that a fresh [License] object reaches,
    [initialize()] has been called exactly once on each manager constructed,
    in the order of construction, and on nothing else. *)
Theorem initialize_once_per_manager (o : OS)
    (settings : gmap string SettingsRow) (calls : list (Env * Call)) :
  let s := run calls (License_new o settings) in
  initialized (trace s) = constructed (trace s)
  ∧ NoDup (initialized (trace s)).
Proof.
  intros s.
  destruct (manager_in_order_run calls _ (manager_in_order_new o settings))
    as (Ic & Ii & _).
  fold s in Ic, Ii. rewrite Ii, Ic. split; [done|apply NoDup_seq].
Qed.

Lemma step_keeps_manager s call :
  is_Some (manager s) → is_Some (manager (step s call)).
Proof.
  intros Hm.
  destruct (step_effect s call) as [(E1 & _)|([opts E1] & _)]; rewrite E1; eauto.
Qed.

(** X6.  No method clears the manager field: once the object holds a
    manager it holds one after every further call -- [shutdown] included,
    which leaves the very same manager in place. *)
Theorem manager_never_cleared s (m : LicenseManager)
    (calls : list (Env * Call)) (c : Completion) :
  manager s = Some m →
  is_Some (manager (run calls s))
  ∧ manager (exec (Rev2.shutdown c) s) = Some m.
Proof.
  intros Hm. split.
  - assert (Hs : is_Some (manager s)) by eauto. clear Hm.
    revert s Hs. induction calls as [|call calls IH]; intros s Hs; [done|].
    apply IH, step_keeps_manager, Hs.
  - unfold Rev2.shutdown, Rev2.shutdown_begin, Rev2.shutdown_settle. run_monad.
    rewrite Hm. simpl. by destruct c.
Qed.

(** X7.  When the constructor returns but [initialize()] throws, [init]
    still leaves the new manager installed; the error is logged if it is an
    [Error] and dropped silently if it is not; and a later [init()] without
    [forceRecreate] does not try again -- it finds the manager and returns
    with a warning. *)
Theorem init_keeps_manager_when_initialize_throws env env' sdk sdk'
    (isError : bool) s :
  manager s = None → isShuttingDown s = false →
  construct sdk = Returns → initialize sdk = Throws isError →
  let s1 := exec (Rev2.init env sdk false) s in
  manager s1 = Some {| handle := nextHandle s; options := Rev2.init_options env |}
  ∧ logged Error (trace s1)
    = (logged Error (trace s)
       ++ if isError then ["Could not initialize license manager sdk"] else [])%list
  ∧ exec (Rev2.init env' sdk' false) s1
    = emit (Logged Warn "License manager already initialized or shutting down") s1.
Proof.
  intros Hm Hs Hc Hi s1.
  assert (H1 : manager s1
               = Some {| handle := nextHandle s; options := Rev2.init_options env |}).
  { by destruct (Rev2_init_constructs env sdk s Hm Hs Hc) as (? & _). }
  split; [exact H1|]. split; [|by eapply Rev2_init_present].
  unfold s1, Rev2.init, Rev2.init_begin, Rev2.init_settle. run_monad.
  rewrite Hm; simpl. rewrite Hs; simpl. rewrite Hc; simpl. rewrite Hi; simpl.
  destruct isError; simpl; observe; reflexivity.
Qed.

(** [reinit] in pair form: the reset, then [init(true)], then the log
    line. *)
Lemma reinit_unfold env sdk s m :
  manager s = Some m →
  exec (Rev2.reinit env sdk) s
  = emit (Logged Debug "License reinitialized")
      (exec (Rev2.init env sdk true) (emit (ManagerReset (handle m)) s)).
Proof.
  intros Hm.
  unfold Rev2.reinit, exec, mbind, M_bind, get, modify, mret, M_ret, log.
  simpl. rewrite Hm. simpl.
  by destruct (Rev2.init env sdk true (emit (ManagerReset (handle m)) s)) as [[] ?].
Qed.

(** X8.  On an object that is not shutting down, [reinit] calls [reset()]
    on the manager in place and then, if the constructor returns, installs a
    newly constructed manager of another identity.  The old manager's
    [shutdown()] is not called. *)
Theorem reinit_replaces_manager (o : OS) (settings : gmap string SettingsRow)
    (calls : list (Env * Call)) env sdk (m : LicenseManager) :
  let s := run calls (License_new o settings) in
  manager s = Some m → isShuttingDown s = false → construct sdk = Returns →
  let s' := exec (Rev2.reinit env sdk) s in
  ∃ m', manager s' = Some m'
        ∧ handle m' ≠ handle m
        ∧ options m' = Rev2.init_options env
        ∧ reset_calls (trace s') = (reset_calls (trace s) ++ [handle m])%list
        ∧ constructed (trace s') = (constructed (trace s) ++ [handle m'])%list
        ∧ shut_down (trace s') = shut_down (trace s).
Proof.
  intros s Hm Hs Hc s'.
  destruct (manager_in_order_run calls _ (manager_in_order_new o settings))
    as (_ & _ & Im).
  fold s in Im. rewrite Hm in Im.
  exists {| handle := nextHandle s; options := Rev2.init_options env |}.
  unfold s'. rewrite (reinit_unfold env sdk s m Hm).
  unfold Rev2.init, Rev2.init_begin, Rev2.init_settle. run_monad.
  rewrite Hm; simpl. rewrite Hs; simpl. rewrite Hc; simpl.
  destruct (initialize sdk) as [|[]]; simpl; observe;
    (repeat split; [lia|done..]).
Qed.

(** X9.  When shutdown has begun, or when the constructor throws, [reinit]
    has already called [reset()] on the manager in place and cannot replace
    it: the object is left holding the manager it has just reset. *)
Theorem reinit_keeps_reset_manager env sdk s (m : LicenseManager) :
  manager s = Some m →
  isShuttingDown s = true ∨ construct sdk ≠ Returns →
  let s' := exec (Rev2.reinit env sdk) s in
  manager s' = Some m
  ∧ reset_calls (trace s') = (reset_calls (trace s) ++ [handle m])%list
  ∧ constructed (trace s') = constructed (trace s).
Proof.
  intros Hm Hcase s'. unfold s'. rewrite (reinit_unfold env sdk s m Hm).
  unfold Rev2.init, Rev2.init_begin, Rev2.init_settle. run_monad.
  rewrite Hm; simpl.
  destruct (isShuttingDown s) eqn:Hs; simpl.
  { observe. done. }
  destruct Hcase as [?|Hc]; [done|].
  destruct (construct sdk) as [|[]]; [done|..]; simpl; observe; done.
Qed.

(** X10.  With a manager in place, [activate], [reload] and [renew] each
    make one call on that manager and hand its completion to the caller: a
    throw is not caught, and the success line is logged only when the call
    returned.  The manager and the shutdown flag are not touched. *)
Theorem manager_calls_propagate s (m : LicenseManager) (activationKey : string)
    (c : Completion) :
  manager s = Some m →
  let logs (line : string) : list Event :=
    match c with Returns => [Logged Debug line] | Throws _ => [] end in
  let after (call : Event) (line : string) : State OS :=
    foldl (λ s e, emit e s) s (call :: logs line) in
  Rev2.activate activationKey c s
    = (c, after (ManagerActivate (handle m) activationKey) "License activated")
  ∧ Rev2.reload c s = (c, after (ManagerReload (handle m)) "License reloaded")
  ∧ Rev2.renew c s = (c, after (ManagerRenew (handle m)) "License renewed").
Proof.
  intros Hm logs after.
  unfold Rev2.activate, Rev2.reload, Rev2.renew. run_monad.
  rewrite Hm. simpl. unfold after, logs. by destruct c.
Qed.

End ManagerFacts.

(** ** More on the certificate store *)

Section CertificateStoreFacts.
Context `{OrchestrationService OS}.
Implicit Types (env : Env) (s : State OS).

(** X11.  Without an ephemeral certificate, [saveCertStr] writes one row --
    the certificate under the certificate key, not loaded on startup -- and
    leaves every other row as it was.  Saving the same value again leaves
    the table as it is, and of two saves only the later one shows. *)
Theorem saveCertStr_writes_one_row env s (v w k : string) :
  license_cert (config env) = "" →
  let key := SETTINGS_LICENSE_CERT_KEY (constants env) in
  let table (s : State OS) := settingsRepository s in
  let save (v : string) (s : State OS) := exec (saveCertStr env v) s in
  table (save v s) !! key = Some {| value := v; loadOnStartup := false |}
  ∧ (k ≠ key → table (save v s) !! k = table s !! k)
  ∧ writes (trace (save v s))
    = (writes (trace s) ++ [(key, {| value := v; loadOnStartup := false |})])%list
  ∧ reads (trace (save v s)) = reads (trace s)
  ∧ table (save v (save v s)) = table (save v s)
  ∧ table (save w (save v s)) = table (save w s).
Proof.
  intros Hc key table save. unfold save, table.
  rewrite !(saveCertStr_persisted env _ _ Hc). simpl. fold key.
  repeat split.
  - apply lookup_insert_eq.
  - intros Hk. by apply lookup_insert_ne.
  - by observe.
  - by observe.
  - apply insert_insert_eq.
  - apply insert_insert_eq.
Qed.

(** X12.  [loadCertStr] never writes: whatever the configuration, the
    settings table is the same after a load.  Without an ephemeral
    certificate a load is one read of the certificate key; when no row is
    stored under that key it returns the empty string; and a second load
    returns what the first returned. *)
Theorem loadCertStr_only_reads env s :
  let key := SETTINGS_LICENSE_CERT_KEY (constants env) in
  let s' := exec (loadCertStr env) s in
  settingsRepository s' = settingsRepository s
  ∧ writes (trace s') = writes (trace s)
  ∧ eval (loadCertStr env) s' = eval (loadCertStr env) s
  ∧ (license_cert (config env) = "" →
     reads (trace s') = (reads (trace s) ++ [key])%list
     ∧ (settingsRepository s !! key = None → eval (loadCertStr env) s = "")).
Proof.
  intros key s'. unfold s', eval, exec.
  destruct (truthy (license_cert (config env))) eqn:Hc.
  - rewrite !(loadCertStr_ephemeral env _ Hc). simpl.
    split; [done|]. split; [done|]. split; [done|].
    intros He. rewrite He in Hc. discriminate.
  - apply truthy_empty in Hc.
    rewrite !(loadCertStr_persisted env _ Hc). simpl. fold key.
    split; [done|]. split; [by observe|]. split; [done|].
    intros _. split; [by observe|].
    intros Hk. by rewrite Hk.
Qed.

End CertificateStoreFacts.

(** ** More on the feature-change reactor *)

Section ReactorFacts.
Context `{OrchestrationService OS}.
Implicit Types (env : Env) (f : gmap string FeatureValue) (s : State OS).

(** X13.  The later revision's reactor publishes at most one message per
    run, the command "reload-license", and it does so exactly in queue mode
    unless the multi-main setup is enabled -- in the configuration and as
    the orchestration service reports it -- and the instance is a
    follower. *)
Theorem onFeatureChange_publishes_iff env f s :
  let queue := String.eqb (executions_mode (config env)) "queue" in
  let follows :=
    multiMainSetup_enabled (config env)
    && isMultiMainSetupEnabled
         (setMultiMainSetupLicensed true (orchestrationService s))
    && isFollower (instanceSettings env) in
  published (trace (exec (Rev2.onFeatureChange env f) s))
  = (published (trace s)
     ++ if queue && negb follows then ["reload-license"] else [])%list.
Proof.
  intros queue follows. unfold queue, follows.
  unfold Rev2.onFeatureChange, Rev2.onFeatureChange_multiMain.
  destruct (String.eqb (executions_mode (config env)) "queue");
    destruct (multiMainSetup_enabled (config env));
    destruct (isFollower (instanceSettings env)); run_monad.
  all: rewrite ?andb_false_r, ?andb_true_r; simpl.
  all: split_conditions.
  all: observe; reflexivity.
Qed.

(** X14.  In queue mode with the multi-main setup configured, the reactor of
    either revision reports the multi-main setup as licensed -- one call
    [setMultiMainSetupLicensed(true)] -- whatever the received feature set
    says; in every other configuration it does not call the orchestration
    service at all.  It never reports the setup as unlicensed. *)
Theorem onFeatureChange_always_reports_licensed env f s :
  let reports :=
    String.eqb (executions_mode (config env)) "queue"
    && multiMainSetup_enabled (config env) in
  let told (o : OS) := if reports then setMultiMainSetupLicensed true o else o in
  let s2 := exec (Rev2.onFeatureChange env f) s in
  let s1 := exec (Rev1.onFeatureChange env f) s in
  licensed_calls (trace s2)
    = (licensed_calls (trace s) ++ if reports then [true] else [])%list
  ∧ orchestrationService s2 = told (orchestrationService s)
  ∧ licensed_calls (trace s1)
    = (licensed_calls (trace s) ++ if reports then [true] else [])%list
  ∧ orchestrationService s1 = told (orchestrationService s).
Proof.
  intros reports told s2 s1. unfold s2, s1, told, reports.
  unfold Rev2.onFeatureChange, Rev2.onFeatureChange_multiMain,
    Rev1.onFeatureChange, Rev1.onFeatureChange_multiMain,
    Rev1.onFeatureChange_publish.
  destruct (String.eqb (executions_mode (config env)) "queue");
    destruct (multiMainSetup_enabled (config env));
    destruct (isFollower (instanceSettings env)); run_monad.
  all: rewrite ?andb_false_r, ?andb_true_r; simpl.
  all: split_conditions.
  all: observe; auto.
Qed.

(** X15.  Outside queue mode the reactor reaches none of its collaborators:
    the later revision logs the notification and does nothing else, the
    earlier revision does nothing at all. *)
Theorem onFeatureChange_outside_queue_mode env f s :
  executions_mode (config env) ≠ "queue" →
  exec (Rev2.onFeatureChange env f) s
    = emit (Logged Debug "License feature change detected") s
  ∧ exec (Rev1.onFeatureChange env f) s = s.
Proof.
  intros Hq%String.eqb_neq.
  unfold Rev2.onFeatureChange, Rev2.onFeatureChange_multiMain,
    Rev1.onFeatureChange, Rev1.onFeatureChange_multiMain.
  rewrite Hq. run_monad. rewrite ?andb_false_r. simpl. done.
Qed.



End ReactorFacts.

(** ** The read side *)

(** [find] returns the first element that satisfies the test. *)
Lemma find_first {A} (test : A → bool) (l : list A) (x : A) :
  List.find test l = Some x
  ↔ ∃ before after,
      l = (before ++ x :: after)%list ∧ test x = true
      ∧ Forall (λ y, test y = false) before.
Proof.
  induction l as [|y l IH]; simpl.
  - split; [done|]. intros (before & after & Hl & _). by destruct before.
  - destruct (test y) eqn:Hy.
    + split.
      * intros [= ->]. exists [], l. by repeat split.
      * intros ([|z before] & after & Hl & Hx & Hb); simplify_eq/=; [done|].
        apply Forall_cons in Hb as [Hz _]. congruence.
    + rewrite IH. split.
      * intros (before & after & -> & Hx & Hb).
        exists (y :: before), after. repeat split; [done|by constructor].
      * intros ([|z before] & after & Hl & Hx & Hb); simplify_eq/=; [congruence|].
        apply Forall_cons in Hb as [_ Hb]. eauto.
Qed.

Lemma find_nothing {A} (test : A → bool) (l : list A) :
  List.find test l = None ↔ Forall (λ y, test y = false) l.
Proof.
  induction l as [|y l IH]; simpl; [by split|].
  destruct (test y) eqn:Hy.
  - split; [done|]. intros [Hy' _]%Forall_cons. congruence.
  - rewrite IH. split; [by constructor|]. by intros [_ ?]%Forall_cons.
Qed.

Section QueryFacts.
Context {OS : Type}.
Implicit Types (this : State OS) (sdk : ManagerAnswers).

(** X17.  [getMainPlan] returns the first of the manager's entitlements
    whose product metadata marks it as the main plan -- the entitlements
    before it are not marked -- and it returns nothing exactly when there
    is no manager or no entitlement is marked.  An entitlement without
    metadata, without terms or without the mark does not count. *)
Theorem getMainPlan_first_marked this sdk (e : TEntitlement) :
  (getMainPlan this sdk = Some e
   ↔ is_Some (manager this)
     ∧ ∃ before after,
         answer_entitlements sdk = (before ++ e :: after)%list
         ∧ marked_main_plan e = true
         ∧ Forall (λ x, marked_main_plan x = false) before)
  ∧ (getMainPlan this sdk = None
     ↔ manager this = None
       ∨ Forall (λ x, marked_main_plan x = false) (answer_entitlements sdk))
  ∧ (marked_main_plan e = true
     ↔ ∃ metadata,
         productMetadata e = Some metadata
         ∧ ∃ t, terms metadata = Some t ∧ isMainPlan t = Some true).
Proof.
  unfold getMainPlan, getCurrentEntitlements.
  split; [|split].
  - destruct (manager this) as [m|]; simpl.
    + destruct (answer_entitlements sdk) as [|x l] eqn:Hl; simpl.
      * split; [done|]. intros (_ & before & after & Hb & _). by destruct before.
      * change (if marked_main_plan x then Some x else List.find marked_main_plan l)
          with (List.find marked_main_plan (x :: l)).
        rewrite find_first. split; [intros ?; split; eauto|by intros [_ ?]].
    + split; [done|]. by intros [[? [=]] _].
  - destruct (manager this) as [m|]; simpl; [|by split; eauto].
    destruct (answer_entitlements sdk) as [|x l] eqn:Hl; simpl.
    + split; [by right|done].
    + change (if marked_main_plan x then Some x else List.find marked_main_plan l)
        with (List.find marked_main_plan (x :: l)).
      rewrite find_nothing. split; [by right|by intros [|]].
  - unfold marked_main_plan.
    destruct (productMetadata e) as [[[[[[|]|]]|]]|]; simpl.
    + split; [eauto 10|done].
    + split; [done|]. by intros (? & [= <-] & ? & [= <-] & [=]).
    + split; [done|]. by intros (? & [= <-] & ? & [= <-] & [=]).
    + split; [done|]. by intros (? & [= <-] & ? & [=] & _).
    + split; [done|]. by intros (? & [=] & _).
Qed.

(** X18.  Without a manager the read queries do not fail; each gives its
    fallback, whatever the SDK would have answered: no entitlements, no
    feature value, no main plan, the consumer id 'unknown', the plan name
    'KDIGI', and in the earlier revision a team-project limit of 0. *)
Theorem queries_without_manager this sdk (names : LicenseNames)
    (feature : string) :
  manager this = None →
  getCurrentEntitlements this sdk = []
  ∧ getFeatureValue this sdk feature = None
  ∧ getMainPlan this sdk = None
  ∧ getConsumerId this sdk = "unknown"
  ∧ getPlanName this sdk = FString "KDIGI"
  ∧ Rev1_getTeamProjectLimit names this sdk = FNumber 0.
Proof.
  intros Hm.
  unfold getCurrentEntitlements, getMainPlan, getConsumerId, getPlanName,
    Rev1_getTeamProjectLimit, getFeatureValue.
  rewrite Hm. by repeat split.
Qed.

(** X19.  With a manager, the plan name is the manager's value for
    'planName' whenever it has one -- the empty string included -- and
    'KDIGI' only when it has none; likewise the earlier revision's
    team-project limit is the manager's value, 0 included, and 0 when it
    has none. *)
Theorem plan_name_falls_back_on_absence_only this sdk (names : LicenseNames)
    (m : LicenseManager) :
  manager this = Some m →
  getPlanName this sdk
    = default (FString "KDIGI") (answer_featureValue sdk "planName")
  ∧ (answer_featureValue sdk "planName" = Some (FString "") →
     getPlanName this sdk = FString "")
  ∧ Rev1_getTeamProjectLimit names this sdk
    = default (FNumber 0) (answer_featureValue sdk (TEAM_PROJECT_LIMIT names)).
Proof.
  intros Hm.
  unfold getPlanName, Rev1_getTeamProjectLimit, getFeatureValue.
  rewrite Hm. repeat split. by intros ->.
Qed.

(** X20.  Every feature check of the later revision answers "licensed",
    and every quota is the unlimited one, in every state of the object:
    with or without a manager, and whatever names the feature constants
    carry.  The two negative flags, [isAPIDisabled] and
    [isShowNonProdBanner], are always off. *)
Theorem features_always_granted (names : LicenseNames) (env : Env) this :
  Forall (λ answer, answer = true) (feature_checks names this)
  ∧ Forall (λ limit, limit = UNLIMITED_LICENSE_QUOTA (constants env))
      (quotas env this)
  ∧ isFeatureEnabled this (AI_ASSISTANT names) = true
  ∧ isAPIDisabled this = false
  ∧ isShowNonProdBanner this = false
  ∧ Rev1_isProjectRoleAdminLicensed names this = true
  ∧ Rev1_isProjectRoleEditorLicensed names this = true
  ∧ Rev1_isProjectRoleViewerLicensed names this = true.
Proof.
  repeat split; try reflexivity.
  - unfold feature_checks. repeat constructor.
  - unfold quotas. repeat constructor.
Qed.

End QueryFacts.

(** ** The options of the earlier revision *)

(** X21.  The earlier revision builds the manager for the instance type it
    is passed: any type other than main runs offline, with the empty
    functions for saving the certificate and for feature changes, and never
    renews; a main renews, on init and periodically, exactly when the
    multi-main setup is enabled, automatic renewal is configured and the
    instance is the leader. *)
Theorem Rev1_init_options_by_instance_type (env : Env) (t : N8nInstanceType) :
  let opts := Rev1.init_options env t in
  let isMainInstance := bool_decide (t = main) in
  let renews :=
    isMainInstance
    && multiMainSetup_enabled (config env)
    && license_autoRenewEnabled (config env)
    && bool_decide (multiMainSetup_instanceType (config env) = leader) in
  offlineMode opts = negb isMainInstance
  ∧ saveCertStr_wired opts = isMainInstance
  ∧ onFeatureChange_wired opts = isMainInstance
  ∧ autoRenewEnabled opts = renews
  ∧ renewOnInit opts = renews
  ∧ (offlineMode opts = true → autoRenewEnabled opts = false).
Proof.
  simpl. rewrite Rev1_renewalEnabled_closed.
  repeat split. by intros ->%negb_true_iff.
Qed.

(** ** The named queries of [LicenseState] *)

Module LicenseStateQueryFacts.
Import LicenseState LicenseStateQueries.

(** X22.  The four named queries that still consult the provider throw the
    provider-not-set error when none is installed.  With a provider, the two
    checks are the provider's answers for 'feat:askAi' and 'feat:aiCredits',
    and the two quotas are the provider's values for 'quota:aiCredits' and
    'quota:insights:maxHistoryDays' whenever it has one -- a value of 0
    included -- and 0 and 7 only when it has none. *)
Theorem provider_backed_queries (this : LicenseState) :
  match licenseProvider this with
  | None =>
      isAskAiLicensed this = providerNotSet
      ∧ isAiCreditsLicensed this = providerNotSet
      ∧ getMaxAiCredits this = providerNotSet
      ∧ getInsightsMaxHistory this = providerNotSet
  | Some p =>
      isAskAiLicensed this = Value (provider_isLicensed p "feat:askAi")
      ∧ isAiCreditsLicensed this = Value (provider_isLicensed p "feat:aiCredits")
      ∧ getMaxAiCredits this
        = Value (default (FNumber 0) (provider_getValue p "quota:aiCredits"))
      ∧ getInsightsMaxHistory this
        = Value (default (FNumber 7)
                   (provider_getValue p "quota:insights:maxHistoryDays"))
  end.
Proof.
  unfold isAskAiLicensed, isAiCreditsLicensed, getMaxAiCredits,
    getInsightsMaxHistory, orElse, isLicensed, getValue, assertProvider.
  destruct (licenseProvider this) as [p|]; [|by repeat split].
  repeat split.
  - by destruct (provider_getValue p "quota:aiCredits").
  - by destruct (provider_getValue p "quota:insights:maxHistoryDays").
Qed.

(** X23.  The other named queries neither need nor heed a provider: each
    returns its fixed answer -- licensed for every feature, off for
    [isAPIDisabled], the unlimited quota, 180 and 24 days for the insights
    retention -- with no provider installed and with any provider,
    whatever that provider would say. *)
Theorem fixed_queries_ignore_provider (k : Constants) (this : LicenseState) :
  fixed_booleans this
    = (replicate 15 (Value true) ++ [Value false] ++ replicate 9 (Value true))%list
  ∧ fixed_quotas k this
    = [Value (UNLIMITED_LICENSE_QUOTA k); Value (UNLIMITED_LICENSE_QUOTA k);
       Value (UNLIMITED_LICENSE_QUOTA k); Value (UNLIMITED_LICENSE_QUOTA k);
       Value 180%Z; Value 24%Z; Value (UNLIMITED_LICENSE_QUOTA k)]
  ∧ isAPIDisabled this = Value false
  ∧ Forall (λ r, returns r = true) (fixed_booleans this)
  ∧ Forall (λ r, returns r = true) (fixed_quotas k this).
Proof.
  repeat split; try reflexivity.
  - unfold fixed_booleans. repeat constructor.
  - unfold fixed_quotas. repeat constructor.
Qed.

End LicenseStateQueryFacts.

(** ** The further properties on the sample collaborators *)

Lemma manager_never_cleared_witness :
  let env := sample_env sample_config unset in
  is_Some (manager (run [(env, Shutdown Returns);
                         (env, Reinit sdk_constructor_throws)] live_license))
  ∧ manager (exec (Rev2.shutdown Returns) live_license) = Some first_manager.
Proof.
  intros env.
  apply (manager_never_cleared live_license first_manager
           [(env, Shutdown Returns); (env, Reinit sdk_constructor_throws)]
           Returns).
  vm_compute. reflexivity.
Defined.

Lemma init_keeps_manager_when_initialize_throws_witness :
  let env := sample_env sample_config unset in
  let s1 := exec (Rev2.init env sdk_initialize_throws false) (sample_license unset) in
  manager s1 = Some first_manager
  ∧ logged Error (trace s1) = ["Could not initialize license manager sdk"]
  ∧ manager (exec (Rev2.init env sdk_ok false) s1) = Some first_manager.
Proof.
  intros env s1.
  destruct (init_keeps_manager_when_initialize_throws env env
              sdk_initialize_throws sdk_ok true (sample_license unset))
    as (Hm & Hl & Hn); [reflexivity..|].
  fold s1 in Hm, Hl, Hn.
  split; [exact Hm|]. split; [exact Hl|].
  rewrite Hn. exact Hm.
Defined.

Lemma reinit_replaces_manager_witness :
  let env := sample_env sample_config unset in
  let s := run [(env, Init sdk_ok false)] (sample_license unset) in
  ∃ m', manager (exec (Rev2.reinit env sdk_ok) s) = Some m'
        ∧ handle m' ≠ handle first_manager.
Proof.
  intros env s.
  destruct (reinit_replaces_manager (sample_orchestration unset) ∅
              [(env, Init sdk_ok false)] env sdk_ok first_manager)
    as (m' & Hm & Hh & _); [vm_compute; reflexivity|reflexivity|reflexivity|].
  exists m'. split; [exact Hm|exact Hh].
Defined.

Lemma reinit_keeps_reset_manager_witness :
  let env := sample_env sample_config unset in
  let s' := exec (Rev2.reinit env sdk_constructor_throws) live_license in
  manager s' = Some first_manager
  ∧ reset_calls (trace s')
    = (reset_calls (trace live_license) ++ [handle first_manager])%list
  ∧ constructed (trace s') = constructed (trace live_license).
Proof.
  intros env.
  apply (reinit_keeps_reset_manager env sdk_constructor_throws live_license
           first_manager).
  - vm_compute. reflexivity.
  - right. discriminate.
Defined.

Lemma manager_calls_propagate_witness :
  Rev2.reload Returns live_license
  = (Returns,
     emit (Logged Debug "License reloaded") (emit (ManagerReload 0) live_license))
  ∧ Rev2.activate "key" (Throws true) live_license
    = (Throws true, emit (ManagerActivate 0 "key") live_license).
Proof.
  assert (Hm : manager live_license = Some first_manager)
    by (vm_compute; reflexivity).
  destruct (manager_calls_propagate live_license first_manager "key" Returns Hm)
    as (_ & Wr & _).
  destruct (manager_calls_propagate live_license first_manager "key"
              (Throws true) Hm) as (Wa & _).
  split; [exact Wr|exact Wa].
Defined.

Lemma saveCertStr_writes_one_row_witness :
  let env := sample_env sample_config unset in
  let s := sample_license unset in
  settingsRepository (exec (saveCertStr env "b") (exec (saveCertStr env "a") s))
  = settingsRepository (exec (saveCertStr env "b") s)
  ∧ settingsRepository (exec (saveCertStr env "a") s) !! "license.cert"
    = Some {| value := "a"; loadOnStartup := false |}.
Proof.
  intros env s.
  destruct (saveCertStr_writes_one_row env s "a" "b" "other.key" eq_refl)
    as (Hrow & _ & _ & _ & _ & Hlast).
  split; [exact Hlast|exact Hrow].
Defined.

Lemma loadCertStr_only_reads_witness :
  let env := sample_env sample_config unset in
  let s := sample_license unset in
  settingsRepository (exec (loadCertStr env) s) = settingsRepository s
  ∧ eval (loadCertStr env) s = "".
Proof.
  intros env s.
  destruct (loadCertStr_only_reads env s) as (Ht & _ & _ & Hp).
  destruct (Hp eq_refl) as (_ & He).
  split; [exact Ht|apply He; reflexivity].
Defined.

Lemma onFeatureChange_outside_queue_mode_witness :
  let env := sample_env s3_config unset in
  exec (Rev2.onFeatureChange env ∅) (sample_license unset)
    = emit (Logged Debug "License feature change detected") (sample_license unset)
  ∧ exec (Rev1.onFeatureChange env ∅) (sample_license unset) = sample_license unset.
Proof.
  intros env.
  apply (onFeatureChange_outside_queue_mode env ∅ (sample_license unset)).
  discriminate.
Defined.

Lemma queries_without_manager_witness :
  getMainPlan (sample_license unset) sample_answers = None
  ∧ getPlanName (sample_license unset) sample_answers = FString "KDIGI"
  ∧ getConsumerId (sample_license unset) sample_answers = "unknown".
Proof.
  destruct (queries_without_manager (sample_license unset) sample_answers
              sample_names "planName" eq_refl)
    as (_ & _ & Hp & Hc & Hn & _).
  split; [exact Hp|]. split; [exact Hn|exact Hc].
Defined.

Lemma plan_name_falls_back_on_absence_only_witness :
  getPlanName live_license sample_answers = FString "Enterprise"
  ∧ Rev1_getTeamProjectLimit sample_names live_license sample_answers = FNumber 0.
Proof.
  destruct (plan_name_falls_back_on_absence_only live_license sample_answers
              sample_names first_manager)
    as (Hn & _ & Hl); [vm_compute; reflexivity|].
  split; [exact Hn|exact Hl].
Defined.

(** The main plan among four entitlements: the add-on has no metadata, "b"
    is marked false, "c" is the first marked true, "d" comes too late. *)
Example main_plan_of_sample :
  getMainPlan live_license sample_answers = Some (plan "c" (Some true))
  ∧ getMainPlan (sample_license unset) sample_answers = None.
Proof. vm_compute. split; reflexivity. Qed.

(** Three notifications in queue mode on the earlier revision: three
    messages, one fetch of the publisher. *)
Example three_notifications :
  let env := sample_env (queue_config false unset) unset in
  let s := Rev1_notifications [(env, ∅); (env, ∅); (env, ∅)] (sample_license unset) in
  published (trace s) = ["reloadLicense"; "reloadLicense"; "reloadLicense"]
  ∧ publisher_fetches (trace s) = 1.
Proof. vm_compute. split; reflexivity. Qed.

(** A provider that holds 0 AI credits and no insights history: the 0 is
    returned, the 7 is the fallback. *)
Example sample_provider_quotas :
  let this := LicenseState.setLicenseProvider sample_provider LicenseState.new in
  LicenseState.getMaxAiCredits this = LicenseState.Value (FNumber 0)
  ∧ LicenseStateQueries.getInsightsMaxHistory this = LicenseState.Value (FNumber 7)
  ∧ LicenseState.isAskAiLicensed this = LicenseState.Value true
  ∧ LicenseStateQueries.isAiCreditsLicensed this = LicenseState.Value false.
Proof. vm_compute. repeat split; reflexivity. Qed.

(** A forced re-creation whose constructor throws, after two that
    succeeded: the second manager stays. *)
Example forced_recreation_fails :
  let env := sample_env sample_config unset in
  let s := run [(env, Init sdk_ok false); (env, Reinit sdk_ok);
                (env, Reinit sdk_constructor_throws)] (sample_license unset) in
  (handle <$> manager s) = Some 1
  ∧ constructed (trace s) = [0; 1]
  ∧ initialized (trace s) = [0; 1]
  ∧ reset_calls (trace s) = [0; 1]
  ∧ shut_down (trace s) = [].
Proof. vm_compute. repeat split; reflexivity. Qed.
